(** * Invoice generator: the totals cascade and the page layout of [Build]

    A shallow embedding of [build.go] (package [generator]): the
    computation of the four headline amounts in [appendTotal], and the
    cursor-driven layout performed by [Build] and its [append*] helpers
    on the drawing surface. *)

From Stdlib Require Import ZArith QArith Qpower Qabs List String Bool Lia Lqa.
Import ListNotations.

Local Open Scope Z_scope.

(** ** Outcomes of Go computations

    A Go call either returns or panics; a panic unwinds through every
    caller of this package, none of which recovers. *)

Inductive outcome (A : Type) : Type :=
| Ok (a : A)
| Panic (msg : string).

Arguments Ok {A} a.
Arguments Panic {A} msg.

(** ** Decimal numbers

    The amounts are [decimal.Decimal] values of the shopspring package:
    an arbitrary-precision integer [value] scaled by a power of ten
    [exp].  The operations below are the ones [build.go] calls, with the
    library's behaviour: [Add], [Sub] and [Mul] are exact, [Div] rounds
    half away from zero to [DivisionPrecision] fractional digits and
    panics on a zero divisor.  The 32-bit range of [exp] is not
    modelled. *)

Module decimal.

Record Decimal : Type := New { value : Z; exp : Z }.

Definition DivisionPrecision : Z := 16.

(** [NewFromString("0")] and [NewFromFloat(0)]. *)
Definition Zero : Decimal := New 0 0.

(** [NewFromFloat(100)]: the shortest decimal form of the float, 1e2. *)
Definition Hundred : Decimal := New 1 2.

Definition rescale (d : Decimal) (e : Z) : Decimal :=
  if exp d <? e
  then New (Z.quot (value d) (10 ^ (e - exp d))) e
  else New (value d * 10 ^ (exp d - e)) e.

Definition Add (d d2 : Decimal) : Decimal :=
  let base := Z.min (exp d) (exp d2) in
  New (value (rescale d base) + value (rescale d2 base)) base.

Definition Sub (d d2 : Decimal) : Decimal :=
  let base := Z.min (exp d) (exp d2) in
  New (value (rescale d base) - value (rescale d2 base)) base.

Definition Mul (d d2 : Decimal) : Decimal :=
  New (value d * value d2) (exp d + exp d2).

Definition Abs (d : Decimal) : Decimal := New (Z.abs (value d)) (exp d).

Definition Cmp (d d2 : Decimal) : comparison :=
  let base := Z.min (exp d) (exp d2) in
  Z.compare (value (rescale d base)) (value (rescale d2 base)).

Definition IsZero (d : Decimal) : bool := value d =? 0.

(** Quotient and remainder of a truncated division carried out after
    scaling to [precision] fractional digits. *)
Definition QuoRem (d d2 : Decimal) (precision : Z) : Decimal * Decimal :=
  let scale := - precision in
  let e := exp d - exp d2 - scale in
  if e <? 0
  then
    let aa := value d in
    let bb := value d2 * 10 ^ (- e) in
    (New (Z.quot aa bb) scale, New (Z.rem aa bb) (exp d))
  else
    let aa := value d * 10 ^ e in
    let bb := value d2 in
    (New (Z.quot aa bb) scale, New (Z.rem aa bb) (scale + exp d2)).

Definition DivRound (d d2 : Decimal) (precision : Z) : Decimal :=
  let (q, r) := QuoRem d d2 precision in
  let r2 := New (Z.abs (value r) * 2) (exp r + precision) in
  match Cmp r2 (Abs d2) with
  | Lt => q
  | _ =>
      if Z.sgn (value d) * Z.sgn (value d2) <? 0
      then Sub q (New 1 (- precision))
      else Add q (New 1 (- precision))
  end.

Definition Div (d d2 : Decimal) : outcome Decimal :=
  if IsZero d2
  then Panic "decimal division by 0"
  else Ok (DivRound d d2 DivisionPrecision).

(** The rational number a decimal stands for. *)
Definition toQ (d : Decimal) : Q := (inject_Z (value d) * 10 ^ exp d)%Q.

End decimal.

Import decimal.

(** Sequencing of computations that may panic. *)

Definition obind {A B : Type} (c : outcome A) (k : A -> outcome B) : outcome B :=
  match c with
  | Ok a => k a
  | Panic msg => Panic msg
  end.

Notation "'let*' x ':=' c 'in' k" := (obind c (fun x => k))
  (at level 10, x name, c at level 100, k at level 200).

(** ** Data model *)

(** Modelled from the spec: the type declarations of the package are not
    part of [build.go].  A tax and a discount are tagged variants,
    percent or amount; their getters return the tag as the string that
    [appendTotal] compares against, and the number. *)

Inductive Tax : Type :=
| TaxPercent (p : Decimal)
| TaxAmount (a : Decimal).

Inductive Discount : Type :=
| DiscountPercent (p : Decimal)
| DiscountAmount (a : Decimal).

Definition getTax (t : Tax) : string * Decimal :=
  match t with
  | TaxPercent p => ("percent"%string, p)
  | TaxAmount a => ("amount"%string, a)
  end.

Definition getDiscount (d : Discount) : string * Decimal :=
  match d with
  | DiscountPercent p => ("percent"%string, p)
  | DiscountAmount a => ("amount"%string, a)
  end.

(** Modelled from the spec: a line item and its three amounts.  A percent
    resolves against a base as [base * p / 100], an amount as itself;
    the division is by the non-zero constant 100 and cannot panic.  An
    item without any tax contributes a zero tax. *)

Module Item.

Record Item : Type := mk {
  Quantity : Decimal;
  UnitPrice : Decimal;
  Discount : option Discount;
  Tax : option Tax
}.

Definition setTax (i : Item) t : Item :=
  mk (Quantity i) (UnitPrice i) (Discount i) t.

Definition percentOf (base p : Decimal) : Decimal :=
  DivRound (Mul base p) Hundred DivisionPrecision.

Definition subtotal (i : Item) : Decimal :=
  Mul (Quantity i) (UnitPrice i).

Definition totalWithoutTaxAndWithDiscount (i : Item) : Decimal :=
  match Discount i with
  | None => subtotal i
  | Some (DiscountPercent p) => Sub (subtotal i) (percentOf (subtotal i) p)
  | Some (DiscountAmount a) => Sub (subtotal i) a
  end.

Definition taxWithDiscount (i : Item) : Decimal :=
  match Tax i with
  | None => Zero
  | Some (TaxPercent p) => percentOf (totalWithoutTaxAndWithDiscount i) p
  | Some (TaxAmount a) => a
  end.

End Item.

(** Modelled from the spec: the rendering options are plain data, the
    labels and the currency format. *)

Record Options : Type := {
  AutoPrint : bool;
  CurrencySymbol : string;
  CurrencyPrecision : Z;
  CurrencyThousand : string;
  CurrencyDecimal : string;
  TextRefTitle : string;
  TextVersionTitle : string;
  TextDateTitle : string;
  TextPaymentTermTitle : string;
  TextItemsNameTitle : string;
  TextItemsUnitCostTitle : string;
  TextItemsQuantityTitle : string;
  TextItemsTotalHTTitle : string;
  TextItemsTaxTitle : string;
  TextItemsDiscountTitle : string;
  TextItemsTotalTTCTitle : string;
  TextTotalTotal : string;
  TextTotalDiscounted : string;
  TextTotalTax : string;
  TextTotalWithTax : string
}.

(** Modelled from the spec: page chrome and contact blocks are data of
    the document that only the excluded drawing code reads. *)

Record HeaderFooter : Type := { ChromeText : string }.
Record Contact : Type := { ContactLines : list string }.

Module Document.

Record Document : Type := mk {
  Options : Options;
  Header : option HeaderFooter;
  Footer : option HeaderFooter;
  Type_ : string;
  Ref : string;
  Version : string;
  Date : string;
  Description : string;
  Notes : string;
  PaymentTerm : string;
  Company : Contact;
  Customer : Contact;
  Items : list Item.Item;
  Discount : option Discount;
  DefaultTax : option Tax
}.

(** The document after its items have been written back. *)
Definition setItems (d : Document) (items : list Item.Item) : Document :=
  mk (Options d) (Header d) (Footer d) (Type_ d) (Ref d) (Version d) (Date d)
     (Description d) (Notes d) (PaymentTerm d) (Company d) (Customer d)
     items (Discount d) (DefaultTax d).

End Document.

Definition error : Type := string.

(** ** Computations on a mutable object

    A computation that reads and updates an object of type [S], and that
    may panic. *)

Definition M (S A : Type) : Type := S -> outcome (A * S).

Definition ret {S A : Type} (a : A) : M S A := fun s => Ok (a, s).

Definition bind {S A B : Type} (c : M S A) (k : A -> M S B) : M S B :=
  fun s =>
    match c s with
    | Ok (a, s') => k a s'
    | Panic msg => Panic msg
    end.

Definition lift {S A : Type} (c : outcome A) : M S A :=
  fun s =>
    match c with
    | Ok a => Ok (a, s)
    | Panic msg => Panic msg
    end.

(** A call that updates the object and returns nothing. *)
Definition call {S : Type} (f : S -> S) : M S unit := fun s => Ok (tt, f s).

(** A call that updates the object and returns a value. *)
Definition callr {S A : Type} (f : S -> A * S) : M S A := fun s => Ok (f s).

Notation "x <- c ;; k" := (bind c (fun x => k))
  (at level 61, c at next level, right associativity).
Notation "c ;; k" := (bind c (fun _ => k))
  (at level 61, right associativity).

(** [a > b] on coordinates. *)
Definition Qgtb (a b : Q) : bool := negb (Qle_bool a b).

(** ** The drawing surface

    [gofpdf.Fpdf] is the external drawing collaborator.  The model keeps
    what the layout reads back, the cursor, the page count, the margins
    and the font size, and records every drawing call in order, each cell
    with the page and the position it is drawn at.  Coordinates are
    millimetres, as rationals.  [CellFormat] places a cell at the cursor,
    which is what the surface does with a cell that ends above its
    page-break trigger; [CellFormatAuto] is the call with the automatic
    page break.  The header and footer callbacks run by a page break and
    the handling of negative coordinates are not modelled. *)

Module gofpdf.

Inductive Op : Type :=
| OpSetMargins (left top right : Q)
| OpSetTextColor (r g b : Z)
| OpSetFillColor (r g b : Z)
| OpSetFont (family style : string) (size : Q)
| OpSetRightMargin (margin : Q)
| OpAddPage
| OpRect (page : nat) (x y w h : Q) (style : string)
| OpCellFormat (page : nat) (x y w h : Q) (txt border : string) (ln : Z)
               (align : string) (fill : bool) (link : Z) (linkStr : string)
| OpItemRow (page : nat) (x y : Q) (item : Item.Item) (options : Options)
| OpSetJavascript (script : string).

Record Fpdf : Type := mk {
  x : Q;
  y : Q;
  page : nat;
  lMargin : Q;
  tMargin : Q;
  rMargin : Q;
  fontSizePt : Q;
  ops : list Op
}.

Definition emit (op : Op) (pdf : Fpdf) : Fpdf :=
  mk (x pdf) (y pdf) (page pdf) (lMargin pdf) (tMargin pdf) (rMargin pdf)
     (fontSizePt pdf) (ops pdf ++ [op]).

Definition moveTo (x' y' : Q) (pdf : Fpdf) : Fpdf :=
  mk x' y' (page pdf) (lMargin pdf) (tMargin pdf) (rMargin pdf)
     (fontSizePt pdf) (ops pdf).

(** [gofpdf.New("P", "mm", "A4", "")]: no page yet, margins of one
    centimetre (28.35 points), a 12 point font. *)
Definition New : Fpdf :=
  let margin := ((2835 # 100) * (254 # 720))%Q in
  mk margin margin 0 margin margin margin 12 [].

Definition GetY : M Fpdf Q := fun pdf => Ok (y pdf, pdf).

Definition SetX (x' : Q) : M Fpdf unit :=
  call (fun pdf => moveTo x' (y pdf) pdf).

(** [SetY] also moves the abscissa back to the left margin. *)
Definition SetY (y' : Q) : M Fpdf unit :=
  call (fun pdf => moveTo (lMargin pdf) y' pdf).

Definition SetXY (x' y' : Q) : M Fpdf unit := SetY y' ;; SetX x'.

Definition SetMargins (left top right : Q) : M Fpdf unit :=
  call (fun pdf =>
    emit (OpSetMargins left top right)
      (mk (x pdf) (y pdf) (page pdf) left top right (fontSizePt pdf) (ops pdf))).

Definition SetRightMargin (margin : Q) : M Fpdf unit :=
  call (fun pdf =>
    emit (OpSetRightMargin margin)
      (mk (x pdf) (y pdf) (page pdf) (lMargin pdf) (tMargin pdf) margin
          (fontSizePt pdf) (ops pdf))).

Definition SetTextColor (r g b : Z) : M Fpdf unit :=
  call (emit (OpSetTextColor r g b)).

Definition SetFillColor (r g b : Z) : M Fpdf unit :=
  call (emit (OpSetFillColor r g b)).

Definition SetFont (family style : string) (size : Q) : M Fpdf unit :=
  call (fun pdf =>
    emit (OpSetFont family style size)
      (mk (x pdf) (y pdf) (page pdf) (lMargin pdf) (tMargin pdf) (rMargin pdf)
          size (ops pdf))).

(** The font size in points and in millimetres. *)
Definition GetFontSize : M Fpdf (Q * Q) :=
  fun pdf => Ok ((fontSizePt pdf, (fontSizePt pdf * (254 # 720))%Q), pdf).

(** A new page starts at the left and top margins. *)
Definition AddPage : M Fpdf unit :=
  call (fun pdf =>
    emit OpAddPage
      (mk (lMargin pdf) (tMargin pdf) (S (page pdf)) (lMargin pdf) (tMargin pdf)
          (rMargin pdf) (fontSizePt pdf) (ops pdf))).

Definition Rect (x' y' w h : Q) (style : string) : M Fpdf unit :=
  call (fun pdf => emit (OpRect (page pdf) x' y' w h style) pdf).

(** A cell is drawn at the cursor; [ln] says where the cursor goes
    next: to the right of the cell, to the start of the next line, or
    below the cell. *)
Definition CellFormat (w h : Q) (txt border : string) (ln : Z)
    (align : string) (fill : bool) (link : Z) (linkStr : string) : M Fpdf unit :=
  call (fun pdf =>
    let pdf' :=
      emit (OpCellFormat (page pdf) (x pdf) (y pdf) w h txt border ln align
              fill link linkStr) pdf in
    if ln =? 1 then moveTo (lMargin pdf) (y pdf + h)%Q pdf'
    else if ln =? 2 then moveTo (x pdf) (y pdf + h)%Q pdf'
    else moveTo (x pdf + w)%Q (y pdf) pdf').

Definition SetJavascript (script : string) : M Fpdf unit :=
  call (emit (OpSetJavascript script)).

(** The ordinate below which no cell may end: the height of an A4 page
    (841.89 points) less the bottom margin of two centimetres that [New]
    sets with [SetAutoPageBreak(true, 2*margin)], a little under 277
    millimetres.  [build.go] never changes it. *)
Definition PageBreakTrigger : Q :=
  (((84189 # 100) - 2 * (2835 # 100)) * (254 # 720))%Q.

(** [Fpdf.CellFormat] with its automatic page break: a cell that would end
    below the trigger is drawn on a new page, at the top margin and at
    the abscissa it had. *)
Definition CellFormatAuto (w h : Q) (txt border : string) (ln : Z)
    (align : string) (fill : bool) (link : Z) (linkStr : string) : M Fpdf unit :=
  fun pdf =>
    if Qgtb (y pdf + h) PageBreakTrigger
    then (AddPage ;; SetX (x pdf) ;;
          CellFormat w h txt border ln align fill link linkStr) pdf
    else CellFormat w h txt border ln align fill link linkStr pdf.

End gofpdf.

Definition Fpdf : Type := gofpdf.Fpdf.

(** [accounting.Accounting]: the currency format handed to the external
    money formatter. *)

Module accounting.

Record Accounting : Type := mk {
  Symbol : string;
  Precision : Z;
  Thousand : string;
  Decimal : string
}.

End accounting.

Record rgb : Type := { red : Z; green : Z; blue : Z }.

(** ** The rest of the package

    [build.go] uses constants, helpers and collaborators that other files
    of the package and external libraries define.  They are parameters of
    the development: the layout constants, the string encoder, the
    validator, the header, footer and contact renderers, the height of an
    item row, the multi-line and markup writers of the surface, and the
    money and number formatters. *)

Record Env : Type := {
  BaseMargin : Q;
  BaseMarginTop : Q;
  MaxPageHeight : Q;
  BaseTextFontSize : Q;
  LargeTextFontSize : Q;
  BaseTextColor : rgb;
  GreyTextColor : rgb;
  DarkBgColor : rgb;
  GreyBgColor : rgb;
  ItemColNameOffset : Q;
  ItemColUnitPriceOffset : Q;
  ItemColQuantityOffset : Q;
  ItemColTotalHTOffset : Q;
  ItemColTaxOffset : Q;
  ItemColDiscountOffset : Q;
  ItemColTotalTTCOffset : Q;
  encodeString : string -> string;
  Validate : Document.Document -> option error;
  typeAsString : Document.Document -> string;
  applyHeader : HeaderFooter -> Document.Document -> Fpdf -> Fpdf * option error;
  applyFooter : HeaderFooter -> Document.Document -> Fpdf -> Fpdf * option error;
  appendCompanyContactToDoc : Contact -> Fpdf -> Q * Fpdf;
  appendCustomerContactToDoc : Contact -> Fpdf -> Q * Fpdf;
  rowHeight : Options -> Item.Item -> Q;
  MultiCell : Q -> Q -> string -> string -> string -> bool -> Fpdf -> Fpdf;
  HTMLBasicWrite : Q -> string -> Fpdf -> Fpdf;
  FormatMoneyDecimal : accounting.Accounting -> Decimal -> string;
  DecimalString : Decimal -> string;
  DecimalStringFixed : Decimal -> Z -> string
}.

(** ** The totals of a document

    The first part of [appendTotal] computes the amounts before anything
    is drawn; it does not touch the surface.  [Totals] holds its local
    variables as they stand when the drawing starts; [discountPercent]
    exists only under a document discount. *)

Record Totals : Type := {
  total : Decimal;
  totalWithDiscount : Decimal;
  discountPercent : option Decimal;
  totalTax : Decimal;
  totalWithTax : Decimal
}.

(** Total without tax: the items' totals added up from zero. *)
Definition sumItemTotals (items : list Item.Item) : Decimal :=
  fold_left (fun total item => Add total (Item.totalWithoutTaxAndWithDiscount item))
            items Zero.

(** Apply document discount. *)
Definition applyDocumentDiscount (discount : option Discount) (total : Decimal)
  : outcome Decimal :=
  match discount with
  | Some disc =>
      let (discountType, discountNumber) := getDiscount disc in
      if (discountType =? "amount")%string
      then Ok (Sub total discountNumber)
      else
        let* hundredth := Div discountNumber Hundred in
        let toSub := Mul total hundredth in
        Ok (Sub total toSub)
  | None => Ok Zero
  end.

(** Tax when there is no document discount. *)
Definition sumItemTaxes (items : list Item.Item) : Decimal :=
  fold_left (fun totalTax item => Add totalTax (Item.taxWithDiscount item))
            items Zero.

(** Get percent from total discounted. *)
Definition getDiscountPercent (disc : Discount) (totalWithDiscount : Decimal)
  : outcome Decimal :=
  let (discountType, discountAmount) := getDiscount disc in
  if (discountType =? "amount")%string
  then Div (Mul discountAmount Hundred) totalWithDiscount
  else Ok discountAmount.

(** One round of the tax loop under a document discount. *)
Definition addItemTax (discountPercent totalTax : Decimal) (item : Item.Item)
  : outcome Decimal :=
  match Item.Tax item with
  | Some tax =>
      let (taxType, taxAmount) := getTax tax in
      if (taxType =? "amount")%string
      then Ok (Add totalTax taxAmount)
      else
        let itemTotal := Item.totalWithoutTaxAndWithDiscount item in
        let* toSub := Div (Mul discountPercent itemTotal) Hundred in
        let itemTotalDiscounted := Sub itemTotal toSub in
        let* itemTaxDiscounted := Div (Mul taxAmount itemTotalDiscounted) Hundred in
        Ok (Add totalTax itemTaxDiscounted)
  | None => Ok totalTax
  end.

Fixpoint sumDiscountedTaxes (discountPercent totalTax : Decimal)
    (items : list Item.Item) : outcome Decimal :=
  match items with
  | [] => Ok totalTax
  | item :: rest =>
      let* totalTax' := addItemTax discountPercent totalTax item in
      sumDiscountedTaxes discountPercent totalTax' rest
  end.

Definition computeTotals (d : Document.Document) : outcome Totals :=
  (* Get total (without tax) *)
  let total := sumItemTotals (Document.Items d) in
  (* Apply document discount *)
  let* totalWithDiscount := applyDocumentDiscount (Document.Discount d) total in
  (* Tax *)
  let* taxes :=
    match Document.Discount d with
    | None => Ok (None, sumItemTaxes (Document.Items d))
    | Some disc =>
        let* discountPercent := getDiscountPercent disc totalWithDiscount in
        let* totalTax := sumDiscountedTaxes discountPercent Zero (Document.Items d) in
        Ok (Some discountPercent, totalTax)
    end in
  let totalTax := snd taxes in
  (* finalTotal *)
  let totalWithTax :=
    match Document.Discount d with
    | None => Add total totalTax
    | Some _ => Add totalWithDiscount totalTax
    end in
  Ok {| total := total;
        totalWithDiscount := totalWithDiscount;
        discountPercent := fst taxes;
        totalTax := totalTax;
        totalWithTax := totalWithTax |}.

(** ** Building the document *)

Section Build.

Variable env : Env.

Local Open Scope string_scope.
Local Open Scope Q_scope.

(** [fmt.Sprintf("%s: %s", a, b)]. *)
Definition sprintfPair (a b : string) : string :=
  String.append a (String.append ": " b).

Definition appendTitle (d : Document.Document) : M Fpdf unit :=
  let title := typeAsString env d in
  (* Set x y *)
  gofpdf.SetXY 120 (BaseMarginTop env) ;;
  (* Draw rect *)
  gofpdf.SetFillColor (red (DarkBgColor env)) (green (DarkBgColor env))
                      (blue (DarkBgColor env)) ;;
  gofpdf.Rect 120 (BaseMarginTop env) 80 10 "F" ;;
  (* Draw text *)
  gofpdf.SetFont "Helvetica" "" 14 ;;
  gofpdf.CellFormat 80 10 (encodeString env title) "0" 0%Z "C" false 0%Z "".

(** [now] is the reading of the clock, [time.Now()] in the layout
    [02/01/2006]. *)
Definition appendMetas (now : string) (d : Document.Document) : M Fpdf unit :=
  let opts := Document.Options d in
  (* Append ref *)
  let refString := sprintfPair (encodeString env (TextRefTitle opts)) (Document.Ref d) in
  gofpdf.SetXY 120 (BaseMarginTop env + 11) ;;
  gofpdf.SetFont "Helvetica" "" 8 ;;
  gofpdf.CellFormat 80 4 (encodeString env refString) "0" 0%Z "R" false 0%Z "" ;;
  (* Append version *)
  (if (0 <? String.length (Document.Version d))%nat
   then
     let versionString :=
       sprintfPair (encodeString env (TextVersionTitle opts)) (Document.Version d) in
     gofpdf.SetXY 120 (BaseMarginTop env + 15) ;;
     gofpdf.SetFont "Helvetica" "" 8 ;;
     gofpdf.CellFormat 80 4 (encodeString env versionString) "0" 0%Z "R" false 0%Z ""
   else ret tt) ;;
  (* Append date *)
  let date :=
    if (0 <? String.length (Document.Date d))%nat then Document.Date d else now in
  let dateString := sprintfPair (encodeString env (TextDateTitle opts)) date in
  gofpdf.SetXY 120 (BaseMarginTop env + 19) ;;
  gofpdf.SetFont "Helvetica" "" 8 ;;
  gofpdf.CellFormat 80 4 (encodeString env dateString) "0" 0%Z "R" false 0%Z "".

Definition appendDescription (d : Document.Document) : M Fpdf unit :=
  if (0 <? String.length (Document.Description d))%nat
  then
    y <- gofpdf.GetY ;;
    gofpdf.SetY (y + 10) ;;
    gofpdf.SetFont "Helvetica" "" 10 ;;
    call (MultiCell env 190 5 (encodeString env (Document.Description d)) "B" "L" false)
  else ret tt.

(** One title cell of the item table. *)
Definition titleCell (offset width : Q) (title : string) : M Fpdf unit :=
  gofpdf.SetX offset ;;
  gofpdf.CellFormat width 6 (encodeString env title) "0" 0%Z "" false 0%Z "".

Definition drawsTableTitles (d : Document.Document) : M Fpdf unit :=
  let opts := Document.Options d in
  (* Draw table titles *)
  gofpdf.SetX 10 ;;
  y <- gofpdf.GetY ;;
  gofpdf.SetY (y + 5) ;;
  gofpdf.SetFont "Helvetica" "B" 8 ;;
  (* Draw rec *)
  gofpdf.SetFillColor (red (GreyBgColor env)) (green (GreyBgColor env))
                      (blue (GreyBgColor env)) ;;
  y <- gofpdf.GetY ;;
  gofpdf.Rect 10 y 190 6 "F" ;;
  (* Name *)
  titleCell (ItemColNameOffset env)
            (ItemColUnitPriceOffset env - ItemColNameOffset env)
            (TextItemsNameTitle opts) ;;
  (* Unit price *)
  titleCell (ItemColUnitPriceOffset env)
            (ItemColQuantityOffset env - ItemColUnitPriceOffset env)
            (TextItemsUnitCostTitle opts) ;;
  (* Quantity *)
  titleCell (ItemColQuantityOffset env)
            (ItemColTaxOffset env - ItemColQuantityOffset env)
            (TextItemsQuantityTitle opts) ;;
  (* Total HT *)
  titleCell (ItemColTotalHTOffset env)
            (ItemColTaxOffset env - ItemColTotalHTOffset env)
            (TextItemsTotalHTTitle opts) ;;
  (* Tax *)
  titleCell (ItemColTaxOffset env)
            (ItemColDiscountOffset env - ItemColTaxOffset env)
            (TextItemsTaxTitle opts) ;;
  (* Discount *)
  titleCell (ItemColDiscountOffset env)
            (ItemColTotalTTCOffset env - ItemColDiscountOffset env)
            (TextItemsDiscountTitle opts) ;;
  (* TOTAL TTC *)
  titleCell (ItemColTotalTTCOffset env)
            (190 - ItemColTotalTTCOffset env)
            (TextItemsTotalTTCTitle opts).

(** Modelled from the spec: [appendColTo] is not part of [build.go].
    An item row is a block of variable height: it is drawn at the
    cursor and leaves the cursor at its bottom, on the same page. *)
Definition appendColTo (item : Item.Item) (options : Options) : M Fpdf unit :=
  call (fun pdf =>
    let baseY := gofpdf.y pdf in
    gofpdf.moveTo (gofpdf.lMargin pdf) (baseY + rowHeight env options item)
      (gofpdf.emit
         (gofpdf.OpItemRow (gofpdf.page pdf) (gofpdf.x pdf) baseY item options) pdf)).

(** Check item tax: an item without a tax takes the document's default
    tax, and keeps it. *)
Definition checkItemTax (d : Document.Document) (item : Item.Item) : Item.Item :=
  match Item.Tax item with
  | None => Item.setTax item (Document.DefaultTax d)
  | Some _ => item
  end.

(** One round of the loop of [appendItems]; it returns the item as the
    round leaves it. *)
Definition appendItem (d : Document.Document) (item : Item.Item)
  : M Fpdf Item.Item :=
  (* Check item tax *)
  let item := checkItemTax d item in
  (* Append to pdf *)
  appendColTo item (Document.Options d) ;;
  y <- gofpdf.GetY ;;
  (if Qgtb y (MaxPageHeight env)
   then
     (* Add page *)
     gofpdf.AddPage ;;
     drawsTableTitles d ;;
     gofpdf.SetFont "Helvetica" "" 8
   else ret tt) ;;
  gofpdf.SetX 10 ;;
  y <- gofpdf.GetY ;;
  gofpdf.SetY (y + 6) ;;
  ret item.

(** The loop of [appendItems], over the items in order; it returns the
    items as the loop leaves them. *)
Fixpoint appendItemsFrom (d : Document.Document) (items : list Item.Item)
  : M Fpdf (list Item.Item) :=
  match items with
  | [] => ret []
  | item :: rest =>
      item' <- appendItem d item ;;
      rest' <- appendItemsFrom d rest ;;
      ret (item' :: rest')
  end.

Definition appendItems (d : Document.Document) : M Fpdf Document.Document :=
  drawsTableTitles d ;;
  gofpdf.SetX 10 ;;
  y <- gofpdf.GetY ;;
  gofpdf.SetY (y + 8) ;;
  gofpdf.SetFont "Helvetica" "" 8 ;;
  items <- appendItemsFrom d (Document.Items d) ;;
  ret (Document.setItems d items).

Definition appendNotes (d : Document.Document) : M Fpdf unit :=
  if (String.length (Document.Notes d) =? 0)%nat
  then ret tt
  else
    currentY <- gofpdf.GetY ;;
    gofpdf.SetFont "Helvetica" "" 9 ;;
    gofpdf.SetX (BaseMargin env) ;;
    gofpdf.SetRightMargin 100 ;;
    gofpdf.SetY (currentY + 10) ;;
    size <- gofpdf.GetFontSize ;;
    let lineHt := snd size in
    call (HTMLBasicWrite env lineHt (encodeString env (Document.Notes d))) ;;
    gofpdf.SetRightMargin (BaseMargin env) ;;
    gofpdf.SetY currentY.

(** The equivalent of the document discount in the other unit, for
    display. *)
Definition discountDescription (ac : accounting.Accounting)
    (disc : Discount) (total totalWithDiscount : Decimal) : outcome string :=
  let (discountType, discountAmount) := getDiscount disc in
  if String.eqb discountType "percent"
  then
    Ok (String.append "-"
         (String.append (DecimalString env discountAmount)
           (String.append " % / -"
             (FormatMoneyDecimal env ac (Sub total totalWithDiscount)))))
  else
    let* percent := Div (Mul discountAmount Hundred) total in
    Ok (String.append "-"
         (String.append (FormatMoneyDecimal env ac discountAmount)
           (String.append " / -"
             (String.append (DecimalStringFixed env percent 2) " %")))).

(** [SetFillColor] with one of the colour constants. *)
Definition setFill (c : rgb) : M Fpdf unit :=
  gofpdf.SetFillColor (red c) (green c) (blue c).

(** The signature of [Fpdf.CellFormat]. *)
Definition Cell : Type :=
  Q -> Q -> string -> string -> Z -> string -> bool -> Z -> string -> M Fpdf unit.

(** The body of [appendTotal], with the surface's cell call as [cell]. *)
Definition appendTotalWith (cell : Cell) (d : Document.Document) : M Fpdf unit :=
  let opts := Document.Options d in
  let ac :=
    accounting.mk (encodeString env (CurrencySymbol opts)) (CurrencyPrecision opts)
                  (CurrencyThousand opts) (CurrencyDecimal opts) in
  t <- lift (computeTotals d) ;;
  y <- gofpdf.GetY ;;
  gofpdf.SetY (y + 10) ;;
  gofpdf.SetFont "Helvetica" "" (LargeTextFontSize env) ;;
  gofpdf.SetTextColor (red (BaseTextColor env)) (green (BaseTextColor env))
                      (blue (BaseTextColor env)) ;;
  (* Draw TOTAL HT title *)
  gofpdf.SetX 120 ;;
  setFill (DarkBgColor env) ;;
  y <- gofpdf.GetY ;;
  gofpdf.Rect 120 y 40 10 "F" ;;
  cell 38 10 (encodeString env (TextTotalTotal opts)) "0" 0%Z "R" false 0%Z "" ;;
  (* Draw TOTAL HT amount *)
  gofpdf.SetX 162 ;;
  setFill (GreyBgColor env) ;;
  y <- gofpdf.GetY ;;
  gofpdf.Rect 160 y 40 10 "F" ;;
  cell 40 10 (FormatMoneyDecimal env ac (total t)) "0" 0%Z "L" false 0%Z "" ;;
  match Document.Discount d with
  | Some disc =>
      y <- gofpdf.GetY ;;
      let baseY := y + 10 in
      (* Draw DISCOUNTED title *)
      gofpdf.SetXY 120 baseY ;;
      setFill (DarkBgColor env) ;;
      y <- gofpdf.GetY ;;
      gofpdf.Rect 120 y 40 15 "F" ;;
      (* title *)
      cell 38 (15 # 2) (encodeString env (TextTotalDiscounted opts))
           "0" 0%Z "BR" false 0%Z "" ;;
      (* description *)
      gofpdf.SetXY 120 (baseY + (15 # 2)) ;;
      gofpdf.SetFont "Helvetica" "" (BaseTextFontSize env) ;;
      gofpdf.SetTextColor (red (GreyTextColor env)) (green (GreyTextColor env))
                          (blue (GreyTextColor env)) ;;
      descString <- lift (discountDescription ac disc (total t) (totalWithDiscount t)) ;;
      cell 38 (15 # 2) descString "0" 0%Z "TR" false 0%Z "" ;;
      gofpdf.SetFont "Helvetica" "" (LargeTextFontSize env) ;;
      gofpdf.SetTextColor (red (BaseTextColor env)) (green (BaseTextColor env))
                          (blue (BaseTextColor env)) ;;
      (* Draw DISCOUNT amount *)
      gofpdf.SetY baseY ;;
      gofpdf.SetX 162 ;;
      setFill (GreyBgColor env) ;;
      y <- gofpdf.GetY ;;
      gofpdf.Rect 160 y 40 15 "F" ;;
      cell 40 15 (FormatMoneyDecimal env ac (totalWithDiscount t))
           "0" 0%Z "L" false 0%Z "" ;;
      y <- gofpdf.GetY ;;
      gofpdf.SetY (y + 15)
  | None =>
      y <- gofpdf.GetY ;;
      gofpdf.SetY (y + 10)
  end ;;
  (* Draw TAX title *)
  gofpdf.SetX 120 ;;
  setFill (DarkBgColor env) ;;
  y <- gofpdf.GetY ;;
  gofpdf.Rect 120 y 40 10 "F" ;;
  cell 38 10 (encodeString env (TextTotalTax opts)) "0" 0%Z "R" false 0%Z "" ;;
  (* Draw TAX amount *)
  gofpdf.SetX 162 ;;
  setFill (GreyBgColor env) ;;
  y <- gofpdf.GetY ;;
  gofpdf.Rect 160 y 40 10 "F" ;;
  cell 40 10 (FormatMoneyDecimal env ac (totalTax t)) "0" 0%Z "L" false 0%Z "" ;;
  (* Draw TOTAL TTC title *)
  y <- gofpdf.GetY ;;
  gofpdf.SetY (y + 10) ;;
  gofpdf.SetX 120 ;;
  setFill (DarkBgColor env) ;;
  y <- gofpdf.GetY ;;
  gofpdf.Rect 120 y 40 10 "F" ;;
  cell 38 10 (encodeString env (TextTotalWithTax opts)) "0" 0%Z "R" false 0%Z "" ;;
  (* Draw TOTAL TTC amount *)
  gofpdf.SetX 162 ;;
  setFill (GreyBgColor env) ;;
  y <- gofpdf.GetY ;;
  gofpdf.Rect 160 y 40 10 "F" ;;
  cell 40 10 (FormatMoneyDecimal env ac (totalWithTax t)) "0" 0%Z "L" false 0%Z "".

(** [appendTotal] with every cell placed at the cursor. *)
Definition appendTotal (d : Document.Document) : M Fpdf unit :=
  appendTotalWith gofpdf.CellFormat d.

(** [appendTotal] on the surface that breaks pages by itself. *)
Definition appendTotalAuto (d : Document.Document) : M Fpdf unit :=
  appendTotalWith gofpdf.CellFormatAuto d.

(** The body of [appendPaymentTerm], with the surface's cell call as
    [cell]. *)
Definition appendPaymentTermWith (cell : Cell) (d : Document.Document)
  : M Fpdf unit :=
  if (0 <? String.length (Document.PaymentTerm d))%nat
  then
    let paymentTermString :=
      sprintfPair (encodeString env (TextPaymentTermTitle (Document.Options d)))
                  (encodeString env (Document.PaymentTerm d)) in
    y <- gofpdf.GetY ;;
    gofpdf.SetY (y + 15) ;;
    gofpdf.SetX 120 ;;
    gofpdf.SetFont "Helvetica" "B" 10 ;;
    cell 80 4 paymentTermString "0" 0%Z "R" false 0%Z ""
  else ret tt.

(** [appendPaymentTerm] with the cell placed at the cursor. *)
Definition appendPaymentTerm (d : Document.Document) : M Fpdf unit :=
  appendPaymentTermWith gofpdf.CellFormat d.

(** [appendPaymentTerm] on the surface that breaks pages by itself. *)
Definition appendPaymentTermAuto (d : Document.Document) : M Fpdf unit :=
  appendPaymentTermWith gofpdf.CellFormatAuto d.

(** Check page height (total bloc height = 30, 45 when doc discount). *)
Definition checkPageHeight (d : Document.Document) : M Fpdf unit :=
  y <- gofpdf.GetY ;;
  let offset := y + 30 in
  let offset :=
    match Document.Discount d with
    | Some _ => offset + 15
    | None => offset
    end in
  if Qgtb offset (MaxPageHeight env) then gofpdf.AddPage else ret tt.

(** [Build] from the first page on: nothing below returns an error. *)
Definition buildPages (now : string) (d : Document.Document)
  : M Fpdf Document.Document :=
  (* Add first page *)
  gofpdf.AddPage ;;
  (* Load font *)
  gofpdf.SetFont "Helvetica" "" 12 ;;
  (* Append document title *)
  appendTitle d ;;
  (* Append document metas (ref & version) *)
  appendMetas now d ;;
  (* Append company contact to doc *)
  companyBottom <- callr (appendCompanyContactToDoc env (Document.Company d)) ;;
  (* Append customer contact to doc *)
  customerBottom <- callr (appendCustomerContactToDoc env (Document.Customer d)) ;;
  (if Qgtb customerBottom companyBottom
   then gofpdf.SetXY 10 customerBottom
   else gofpdf.SetXY 10 companyBottom) ;;
  (* Append description *)
  appendDescription d ;;
  (* Append items *)
  d <- appendItems d ;;
  checkPageHeight d ;;
  (* Append notes *)
  appendNotes d ;;
  (* Append total *)
  appendTotal d ;;
  (* Append payment term *)
  appendPaymentTerm d ;;
  (* Append js to autoprint if AutoPrint == true *)
  (if AutoPrint (Document.Options d)
   then gofpdf.SetJavascript "print(true);"
   else ret tt) ;;
  ret d.

(** Header or footer chrome, when the document has one. *)
Definition applyChrome
    (apply : HeaderFooter -> Document.Document -> Fpdf -> Fpdf * option error)
    (chrome : option HeaderFooter) (d : Document.Document) (pdf : Fpdf)
  : Fpdf * option error :=
  match chrome with
  | Some c => apply c d pdf
  | None => (pdf, None)
  end.

(** [Build] returns the surface or an error, never both; the document
    it was called on is returned as [Build] leaves it. *)
Definition Build (now : string) (d : Document.Document)
  : outcome (Document.Document * (option Fpdf * option error)) :=
  (* Validate document data *)
  match Validate env d with
  | Some err => Ok (d, (None, Some err))
  | None =>
      (* Build base doc *)
      let* base :=
        (gofpdf.SetMargins (BaseMargin env) (BaseMarginTop env) (BaseMargin env) ;;
         gofpdf.SetXY 10 10 ;;
         gofpdf.SetTextColor (red (BaseTextColor env)) (green (BaseTextColor env))
                             (blue (BaseTextColor env))) gofpdf.New in
      (* Set header *)
      match applyChrome (applyHeader env) (Document.Header d) d (snd base) with
      | (_, Some err) => Ok (d, (None, Some err))
      | (pdf, None) =>
          (* Set footer *)
          match applyChrome (applyFooter env) (Document.Footer d) d pdf with
          | (_, Some err) => Ok (d, (None, Some err))
          | (pdf, None) =>
              let* built := buildPages now d pdf in
              Ok (fst built, (Some (snd built), None))
          end
      end
  end.

End Build.

(** ** Reference definitions for the statements *)

(** Sum of rationals. *)
Fixpoint Qsum (l : list Q) : Q :=
  match l with
  | [] => 0%Q
  | q :: l' => (q + Qsum l')%Q
  end.

(** Division by a divisor known to be non-zero. *)
Definition quotient (d d2 : Decimal) : Decimal := DivRound d d2 DivisionPrecision.

(** The operands of the integer division behind [DivRound]. *)
Definition scaledOperands (d d2 : Decimal) : Z * Z :=
  let e := exp d - exp d2 + DivisionPrecision in
  if e <? 0
  then (value d, value d2 * 10 ^ (- e))
  else (value d * 10 ^ e, value d2).

(** The total after a document discount: [total - a] for an amount,
    [total - total * (p / 100)] for a percent. *)
Definition discountedTotal (disc : Discount) (total : Decimal) : Decimal :=
  match disc with
  | DiscountAmount a => Sub total a
  | DiscountPercent p => Sub total (Mul total (quotient p Hundred))
  end.

(** What one item adds to the tax total under a document discount of
    effective percentage [discountPercent]: a tax amount as it is; a tax
    percent [p] applied to the item total reduced by the discount
    percentage, [p * (itemTotal - discountPercent * itemTotal / 100) / 100];
    nothing without a tax. *)
Definition taxContribution (discountPercent : Decimal) (item : Item.Item) : Decimal :=
  match Item.Tax item with
  | None => Zero
  | Some (TaxAmount a) => a
  | Some (TaxPercent p) =>
      let itemTotal := Item.totalWithoutTaxAndWithDiscount item in
      quotient
        (Mul p (Sub itemTotal (quotient (Mul discountPercent itemTotal) Hundred)))
        Hundred
  end.

Definition isAddPage (op : gofpdf.Op) : bool :=
  match op with
  | gofpdf.OpAddPage => true
  | _ => false
  end.

(** Number of page breaks in a list of drawing calls. *)
Definition countAddPage (ops : list gofpdf.Op) : nat :=
  List.length (filter isAddPage ops).

(** A drawing call that lands on [page]; a page break lands on none. *)
Definition onPage (page : nat) (op : gofpdf.Op) : bool :=
  match op with
  | gofpdf.OpAddPage => false
  | gofpdf.OpRect pg _ _ _ _ _ => Nat.eqb pg page
  | gofpdf.OpCellFormat pg _ _ _ _ _ _ _ _ _ _ _ => Nat.eqb pg page
  | gofpdf.OpItemRow pg _ _ _ _ => Nat.eqb pg page
  | _ => true
  end.

(** The height of the totals block: 30, and 15 more under a document
    discount. *)
Definition totalsBlockHeight (d : Document.Document) : Q :=
  match Document.Discount d with
  | Some _ => (30 + 15)%Q
  | None => 30%Q
  end.

(** The totals can be drawn: no division of [appendTotal] has a zero
    divisor. *)
Definition totalsDrawable (d : Document.Document) : bool :=
  match Document.Discount d with
  | Some (DiscountAmount a) =>
      negb (IsZero (Sub (sumItemTotals (Document.Items d)) a))
      && negb (IsZero (sumItemTotals (Document.Items d)))
  | _ => true
  end.

(** The ordinates of the rectangles, cells and rows in a list of drawing
    calls. *)
Definition ordinates (l : list gofpdf.Op) : list Q :=
  flat_map (fun op =>
              match op with
              | gofpdf.OpRect _ _ y _ _ _ => [y]
              | gofpdf.OpCellFormat _ _ y _ _ _ _ _ _ _ _ _ => [y]
              | gofpdf.OpItemRow _ _ y _ _ => [y]
              | _ => []
              end) l.

(** Where the totals block is drawn for a cursor at ordinate [y]: the
    total 10 below, then under a document discount the discounted total
    in two half rows, then the tax and the total with tax. *)
Definition totalsOrdinates (d : Document.Document) (y : Q) : list Q :=
  let top := (y + 10)%Q in
  match Document.Discount d with
  | Some _ =>
      let baseY := (top + 10)%Q in
      let tax := (baseY + 15)%Q in
      [top; top; top; top;
       baseY; baseY; (baseY + (15 # 2))%Q; baseY; baseY;
       tax; tax; tax; tax;
       (tax + 10)%Q; (tax + 10)%Q; (tax + 10)%Q; (tax + 10)%Q]
  | None =>
      let tax := (top + 10)%Q in
      [top; top; top; top;
       tax; tax; tax; tax;
       (tax + 10)%Q; (tax + 10)%Q; (tax + 10)%Q; (tax + 10)%Q]
  end.

(** The texts of the cells in a list of drawing calls. *)
Definition cellTexts (l : list gofpdf.Op) : list string :=
  flat_map (fun op =>
              match op with
              | gofpdf.OpCellFormat _ _ _ _ _ txt _ _ _ _ _ _ => [txt]
              | _ => []
              end) l.

(** The texts drawn by a run of [Build] that returned a surface. *)
Definition builtTexts
    (r : outcome (Document.Document * (option Fpdf * option error)))
  : list string :=
  match r with
  | Ok (_, (Some pdf, _)) => cellTexts (gofpdf.ops pdf)
  | _ => []
  end.

Section Layout.

Variable env : Env.

Local Open Scope string_scope.
Local Open Scope Q_scope.

(** The drawing calls of the table titles on [page], for a cursor that
    stands at ordinate [y0] before them. *)
Definition titleOps (d : Document.Document) (page : nat) (y0 : Q)
  : list gofpdf.Op :=
  let opts := Document.Options d in
  let y := y0 + 5 in
  let cell offset width title :=
    gofpdf.OpCellFormat page offset y width 6 (encodeString env title)
                        "0" 0%Z "" false 0%Z "" in
  [ gofpdf.OpSetFont "Helvetica" "B" 8;
    gofpdf.OpSetFillColor (red (GreyBgColor env)) (green (GreyBgColor env))
                          (blue (GreyBgColor env));
    gofpdf.OpRect page 10 y 190 6 "F";
    cell (ItemColNameOffset env)
         (ItemColUnitPriceOffset env - ItemColNameOffset env)
         (TextItemsNameTitle opts);
    cell (ItemColUnitPriceOffset env)
         (ItemColQuantityOffset env - ItemColUnitPriceOffset env)
         (TextItemsUnitCostTitle opts);
    cell (ItemColQuantityOffset env)
         (ItemColTaxOffset env - ItemColQuantityOffset env)
         (TextItemsQuantityTitle opts);
    cell (ItemColTotalHTOffset env)
         (ItemColTaxOffset env - ItemColTotalHTOffset env)
         (TextItemsTotalHTTitle opts);
    cell (ItemColTaxOffset env)
         (ItemColDiscountOffset env - ItemColTaxOffset env)
         (TextItemsTaxTitle opts);
    cell (ItemColDiscountOffset env)
         (ItemColTotalTTCOffset env - ItemColDiscountOffset env)
         (TextItemsDiscountTitle opts);
    cell (ItemColTotalTTCOffset env)
         (190 - ItemColTotalTTCOffset env)
         (TextItemsTotalTTCTitle opts) ].

(** A row crosses the threshold when its bottom lies beyond
    [MaxPageHeight]. *)
Definition crosses (d : Document.Document) (y : Q) (item : Item.Item) : bool :=
  Qgtb (y + rowHeight env (Document.Options d) (checkItemTax d item))
       (MaxPageHeight env).

(** The ordinate of the next row: 6 below the bottom of the row, or 6
    below the titles reprinted at the top margin [top] of a new page. *)
Definition nextRowY (d : Document.Document) (top y : Q) (item : Item.Item) : Q :=
  if crosses d y item
  then top + 5 + 6
  else y + rowHeight env (Document.Options d) (checkItemTax d item) + 6.

(** Number of threshold crossings of a sequence of rows that starts at
    ordinate [y]. *)
Fixpoint crossings (d : Document.Document) (top y : Q) (items : list Item.Item)
  : nat :=
  match items with
  | [] => 0%nat
  | item :: rest =>
      ((if crosses d y item then 1 else 0)
       + crossings d top (nextRowY d top y item) rest)%nat
  end.

(** The drawing calls of a sequence of rows: each row, and after a row
    that crosses the threshold a page break, the table titles and the
    row font. *)
Fixpoint rowsTrace (d : Document.Document) (left top : Q) (page : nat)
    (x y : Q) (items : list Item.Item) : list gofpdf.Op :=
  match items with
  | [] => []
  | item :: rest =>
      gofpdf.OpItemRow page x y (checkItemTax d item) (Document.Options d)
      :: (if crosses d y item
          then
            gofpdf.OpAddPage
            :: titleOps d (S page) top
            ++ gofpdf.OpSetFont "Helvetica" "" 8
            :: rowsTrace d left top (S page) left (nextRowY d top y item) rest
          else rowsTrace d left top page left (nextRowY d top y item) rest)
  end.

(** Every page break in a list of drawing calls is followed at once by
    the table titles and the row font. *)
Inductive TitlesAfterBreaks (d : Document.Document) (top : Q)
  : list gofpdf.Op -> Prop :=
| TitlesAfterBreaks_nil : TitlesAfterBreaks d top []
| TitlesAfterBreaks_call op ops :
    isAddPage op = false ->
    TitlesAfterBreaks d top ops ->
    TitlesAfterBreaks d top (op :: ops)
| TitlesAfterBreaks_break page ops :
    TitlesAfterBreaks d top ops ->
    TitlesAfterBreaks d top
      (gofpdf.OpAddPage
       :: titleOps d page top ++ gofpdf.OpSetFont "Helvetica" "" 8 :: ops).

End Layout.

(** ** Sample documents and a sample environment *)

Module Sample.

Local Open Scope string_scope.

Definition options : Options :=
  {| AutoPrint := false;
     CurrencySymbol := "EUR";
     CurrencyPrecision := 2;
     CurrencyThousand := " ";
     CurrencyDecimal := ",";
     TextRefTitle := "Ref";
     TextVersionTitle := "Version";
     TextDateTitle := "Date";
     TextPaymentTermTitle := "Payment term";
     TextItemsNameTitle := "Name";
     TextItemsUnitCostTitle := "Unit price";
     TextItemsQuantityTitle := "Quantity";
     TextItemsTotalHTTitle := "Total no tax";
     TextItemsTaxTitle := "Tax";
     TextItemsDiscountTitle := "Discount";
     TextItemsTotalTTCTitle := "Total with tax";
     TextTotalTotal := "TOTAL";
     TextTotalDiscounted := "TOTAL DISCOUNTED";
     TextTotalTax := "TAX";
     TextTotalWithTax := "TOTAL WITH TAX" |}.

(** A validator that rejects an empty item list, renderers that draw
    nothing, rows 100 millimetres high. *)
Definition env : Env :=
  {| BaseMargin := 10;
     BaseMarginTop := 20;
     MaxPageHeight := 260;
     BaseTextFontSize := 8;
     LargeTextFontSize := 10;
     BaseTextColor := {| red := 35; green := 35; blue := 35 |};
     GreyTextColor := {| red := 82; green := 82; blue := 82 |};
     DarkBgColor := {| red := 212; green := 212; blue := 212 |};
     GreyBgColor := {| red := 232; green := 232; blue := 232 |};
     ItemColNameOffset := 10;
     ItemColUnitPriceOffset := 80;
     ItemColQuantityOffset := 103;
     ItemColTotalHTOffset := 113;
     ItemColTaxOffset := 125;
     ItemColDiscountOffset := 150;
     ItemColTotalTTCOffset := 175;
     encodeString := fun s => s;
     Validate := fun d =>
       match Document.Items d with
       | [] => Some "Items is a required field"
       | _ => None
       end;
     typeAsString := fun d => Document.Type_ d;
     applyHeader := fun _ _ pdf => (pdf, None);
     applyFooter := fun _ _ pdf => (pdf, None);
     appendCompanyContactToDoc := fun _ pdf => (60%Q, pdf);
     appendCustomerContactToDoc := fun _ pdf => (70%Q, pdf);
     rowHeight := fun _ _ => 100%Q;
     MultiCell := fun _ _ _ _ _ _ pdf => pdf;
     HTMLBasicWrite := fun lineHt _ pdf =>
       gofpdf.moveTo (gofpdf.x pdf) (gofpdf.y pdf + lineHt)%Q pdf;
     FormatMoneyDecimal := fun _ _ => "";
     DecimalString := fun _ => "";
     DecimalStringFixed := fun _ _ => "" |}.

Definition document (items : list Item.Item) (discount : option Discount)
    (date notes : string) : Document.Document :=
  {| Document.Options := options;
     Document.Header := None;
     Document.Footer := None;
     Document.Type_ := "INVOICE";
     Document.Ref := "R-1";
     Document.Version := "";
     Document.Date := date;
     Document.Description := "";
     Document.Notes := notes;
     Document.PaymentTerm := "";
     Document.Company := {| ContactLines := [] |};
     Document.Customer := {| ContactLines := [] |};
     Document.Items := items;
     Document.Discount := discount;
     Document.DefaultTax := None |}.

(** Two units at 100, taxed at 20 percent. *)
Definition widget : Item.Item :=
  Item.mk (New 2 0) (New 100 0) None (Some (TaxPercent (New 20 0))).

(** One unit at 50, with a flat tax of 5. *)
Definition flatTaxed : Item.Item :=
  Item.mk (New 1 0) (New 50 0) None (Some (TaxAmount (New 5 0))).

(** One unit at 50, without tax. *)
Definition plain : Item.Item :=
  Item.mk (New 1 0) (New 50 0) None None.

(** One unit given away. *)
Definition freebie : Item.Item :=
  Item.mk (New 1 0) (New 0 0) None None.

(** A surface on its first page with the cursor at ordinate 100. *)
Definition surface : Fpdf := gofpdf.mk 10 100 1 10 20 10 8 [].

End Sample.

(** ** Reference definitions for the further properties *)

(** A computation that returns from every state. *)
Definition returns {S A : Type} (c : M S A) : Prop :=
  forall s, exists a s', c s = Ok (a, s').

(** The document as [appendItems] leaves it: every item with its tax
    checked. *)
Definition withCheckedTaxes (d : Document.Document) : Document.Document :=
  Document.setItems d (map (checkItemTax d) (Document.Items d)).

(** The ordinates of the item rows in a list of drawing calls. *)
Definition rowOrdinates (l : list gofpdf.Op) : list Q :=
  flat_map (fun op =>
              match op with
              | gofpdf.OpItemRow _ _ y _ _ => [y]
              | _ => []
              end) l.

(** What the tax of an item is after the check: its own, or the default
    tax of the document. *)
Definition checkedTax (d : Document.Document) (item : Item.Item) : option Tax :=
  match Item.Tax item with
  | Some t => Some t
  | None => Document.DefaultTax d
  end.

(** The ordinates at which a sequence of rows starts, from ordinate [y]. *)
Fixpoint rowStarts (env : Env) (d : Document.Document) (top y : Q)
    (items : list Item.Item) : list Q :=
  match items with
  | [] => []
  | item :: rest => y :: rowStarts env d top (nextRowY env d top y item) rest
  end.

(** An ordinate at most 6 below the maximum page height, or that of the
    first row of a new page, 11 below its top margin. *)
Definition startsWithinPage (env : Env) (top y : Q) : Prop :=
  (y <= MaxPageHeight env + 6)%Q \/ y = (top + 5 + 6)%Q.

(** The exact tax of an item under a document discount of effective
    percentage [dp], as a rational: a tax amount as it is, a tax percent
    [p] as [p * (itemTotal - dp * itemTotal / 100) / 100]. *)
Definition exactContribution (dp : Q) (item : Item.Item) : Q :=
  match Item.Tax item with
  | None => 0%Q
  | Some (TaxAmount a) => toQ a
  | Some (TaxPercent p) =>
      let itemTotal := toQ (Item.totalWithoutTaxAndWithDiscount item) in
      (toQ p * (itemTotal - dp * itemTotal / 100) / 100)%Q
  end.

(** Half a unit in the last digit that [Div] keeps. *)
Definition halfUlp : Q := ((1 # 2) * 10 ^ (- DivisionPrecision))%Q.

(** The rounding that the two divisions of a percent tax can add. *)
Definition contributionSlack (item : Item.Item) : Q :=
  match Item.Tax item with
  | Some (TaxPercent p) => ((Qabs (toQ p / 100) + 1) * halfUlp)%Q
  | _ => 0%Q
  end.

(** The currency format that [appendTotal] hands to the money formatter. *)
Definition documentAccounting (env : Env) (d : Document.Document)
  : accounting.Accounting :=
  accounting.mk (encodeString env (CurrencySymbol (Document.Options d)))
                (CurrencyPrecision (Document.Options d))
                (CurrencyThousand (Document.Options d))
                (CurrencyDecimal (Document.Options d)).

(** The texts of the totals block, in the order drawn: each label with
    its amount, and under a document discount the discounted total with
    its description. *)
Definition totalsTexts (env : Env) (d : Document.Document) (t : Totals)
    (description : string) : list string :=
  let opts := Document.Options d in
  let money := FormatMoneyDecimal env (documentAccounting env d) in
  [encodeString env (TextTotalTotal opts); money (total t)]
  ++ match Document.Discount d with
     | Some _ =>
         [encodeString env (TextTotalDiscounted opts); description;
          money (totalWithDiscount t)]
     | None => []
     end
  ++ [encodeString env (TextTotalTax opts); money (totalTax t);
      encodeString env (TextTotalWithTax opts); money (totalWithTax t)].

(** The drawing calls of the payment term for a cursor on [page] at
    ordinate [y]: none without a payment term, else the bold font and one
    cell 15 below. *)
Definition paymentTermOps (env : Env) (d : Document.Document) (page : nat)
    (y : Q) : list gofpdf.Op :=
  match Document.PaymentTerm d with
  | EmptyString => []
  | _ =>
      [gofpdf.OpSetFont "Helvetica" "B" 10;
       gofpdf.OpCellFormat page 120 (y + 15)%Q 80 4
         (sprintfPair
            (encodeString env (TextPaymentTermTitle (Document.Options d)))
            (encodeString env (Document.PaymentTerm d)))
         "0" 0 "R" false 0 ""]
  end.

(** The texts of the metas: the reference, the version when there is one,
    and the date, which is the date of the document when there is one and
    the reading of the clock otherwise. *)
Definition metasTexts (env : Env) (now : string) (d : Document.Document)
  : list string :=
  let opts := Document.Options d in
  [encodeString env
     (sprintfPair (encodeString env (TextRefTitle opts)) (Document.Ref d))]
  ++ match Document.Version d with
     | EmptyString => []
     | _ =>
         [encodeString env
            (sprintfPair (encodeString env (TextVersionTitle opts))
                         (Document.Version d))]
     end
  ++ [encodeString env
        (sprintfPair (encodeString env (TextDateTitle opts))
           match Document.Date d with
           | EmptyString => now
           | _ => Document.Date d
           end)].

(** The ordinates of the metas, counted from the top margin constant. *)
Definition metasOrdinates (env : Env) (d : Document.Document) : list Q :=
  [(BaseMarginTop env + 11)%Q]
  ++ match Document.Version d with
     | EmptyString => []
     | _ => [(BaseMarginTop env + 15)%Q]
     end
  ++ [(BaseMarginTop env + 19)%Q].

(** The surface as [Build] prepares it before the header: no page yet,
    the margins of the package, the cursor at (10, 10). *)
Definition baseSurface (env : Env) : Fpdf :=
  gofpdf.mk 10 10 0 (BaseMargin env) (BaseMarginTop env) (BaseMargin env) 12
    [gofpdf.OpSetMargins (BaseMargin env) (BaseMarginTop env) (BaseMargin env);
     gofpdf.OpSetTextColor (red (BaseTextColor env)) (green (BaseTextColor env))
                           (blue (BaseTextColor env))].

(** The end of [Build]: the totals, the payment term, the script that
    prints the document when [AutoPrint] is set. *)
Definition finishPages (env : Env) (d : Document.Document)
  : M Fpdf Document.Document :=
  appendTotal env d ;;
  appendPaymentTerm env d ;;
  (if AutoPrint (Document.Options d)
   then gofpdf.SetJavascript "print(true);"
   else ret tt) ;;
  ret d.

(** The script call, when [AutoPrint] is set. *)
Definition autoPrintOps (d : Document.Document) : list gofpdf.Op :=
  if AutoPrint (Document.Options d)
  then [gofpdf.OpSetJavascript "print(true);"]
  else [].

(** The contact blocks in [Build]: the company, then the customer, then
    the cursor at abscissa 10 and at the greater of the two bottoms. *)
Definition appendContacts (env : Env) (d : Document.Document) : M Fpdf unit :=
  companyBottom <- callr (appendCompanyContactToDoc env (Document.Company d)) ;;
  customerBottom <- callr (appendCustomerContactToDoc env (Document.Customer d)) ;;
  if Qgtb customerBottom companyBottom
  then gofpdf.SetXY 10 customerBottom
  else gofpdf.SetXY 10 companyBottom.

(** * Properties *)

(** ** Decimal arithmetic *)

Lemma ten_nonzero : ~ (10 == 0)%Q.
Proof. discriminate. Qed.

Lemma inject_pow10 (n : Z) : 0 <= n -> (inject_Z (10 ^ n) == 10 ^ n)%Q.
Proof.
  intros Hn. now rewrite Zpower_Qpower.
Qed.

(** Rescaling to a smaller exponent keeps the number. *)
Lemma toQ_rescale (d : Decimal) (e : Z) :
  e <= exp d -> (toQ (rescale d e) == toQ d)%Q.
Proof.
  intros He. unfold rescale, toQ.
  destruct (Z.ltb_spec (exp d) e) as [Hlt | _]; [lia |]. cbn [value exp].
  rewrite inject_Z_mult, inject_pow10 by lia.
  rewrite <- Qmult_assoc, <- Qpower_plus by exact ten_nonzero.
  now replace (exp d - e + e) with (exp d) by lia.
Qed.

Lemma toQ_New_rescale (d : Decimal) (e : Z) :
  e <= exp d -> (inject_Z (value (rescale d e)) * 10 ^ e == toQ d)%Q.
Proof.
  intros He. rewrite <- (toQ_rescale d e He). unfold toQ, rescale.
  destruct (exp d <? e); reflexivity.
Qed.

(** [Add] is exact. *)
Lemma toQ_Add (d d2 : Decimal) : (toQ (Add d d2) == toQ d + toQ d2)%Q.
Proof.
  unfold Add. unfold toQ at 1. cbn [value exp].
  rewrite inject_Z_plus, Qmult_plus_distr_l.
  rewrite !toQ_New_rescale by lia. reflexivity.
Qed.

(** [Sub] is exact. *)
Lemma toQ_Sub (d d2 : Decimal) : (toQ (Sub d d2) == toQ d - toQ d2)%Q.
Proof.
  unfold Sub. unfold toQ at 1. cbn [value exp].
  unfold Z.sub at 1. rewrite inject_Z_plus, inject_Z_opp, Qmult_plus_distr_l.
  setoid_replace
    (- inject_Z (value (rescale d2 (Z.min (exp d) (exp d2))))
     * 10 ^ Z.min (exp d) (exp d2))%Q
    with (- (inject_Z (value (rescale d2 (Z.min (exp d) (exp d2))))
             * 10 ^ Z.min (exp d) (exp d2)))%Q by ring.
  rewrite !toQ_New_rescale by lia. reflexivity.
Qed.

(** [Mul] is exact. *)
Lemma toQ_Mul (d d2 : Decimal) : (toQ (Mul d d2) == toQ d * toQ d2)%Q.
Proof.
  unfold Mul, toQ. cbn [value exp].
  rewrite inject_Z_mult, Qpower_plus by exact ten_nonzero. ring.
Qed.

Lemma toQ_Zero : (toQ Zero == 0)%Q.
Proof. reflexivity. Qed.

Lemma toQ_Hundred : (toQ Hundred == 100)%Q.
Proof. reflexivity. Qed.

(** [Div] returns exactly when the divisor is not zero. *)
Lemma Div_nonzero (d d2 : Decimal) :
  IsZero d2 = false -> Div d d2 = Ok (quotient d d2).
Proof.
  intros H. unfold Div. now rewrite H.
Qed.

Lemma Div_zero (d d2 : Decimal) :
  IsZero d2 = true -> Div d d2 = Panic "decimal division by 0".
Proof.
  intros H. unfold Div. now rewrite H.
Qed.

Lemma Div_Hundred (d : Decimal) : Div d Hundred = Ok (quotient d Hundred).
Proof. reflexivity. Qed.

(** Dividing by one hundred is exact on a number with at most fourteen
    fractional digits. *)
Lemma toQ_quotient_Hundred (p : Decimal) :
  -14 <= exp p -> (toQ (quotient p Hundred) == toQ p / 100)%Q.
Proof.
  intros Hp. unfold quotient, DivRound, QuoRem, DivisionPrecision.
  cbn [exp value Hundred].
  destruct (Z.ltb_spec (exp p - 2 - - (16)) 0) as [Hlt | Hge]; [lia |].
  rewrite Z.rem_1_r, Z.quot_1_r. cbn [value exp Z.abs Z.mul].
  change (Cmp (New 0 (- (16) + 2 + 16)) (Abs Hundred)) with Lt. cbv iota.
  unfold toQ. cbn [value exp].
  rewrite inject_Z_mult, inject_pow10 by lia.
  rewrite <- Qmult_assoc, <- Qpower_plus by exact ten_nonzero.
  replace (exp p - 2 - - (16) + - (16)) with (exp p + (-2)) by lia.
  rewrite Qpower_plus by exact ten_nonzero.
  change (10 ^ (-2))%Q with (1 # 100)%Q. field.
Qed.

(** The rounding rule on integers: [aa] divided by [bb], truncated, then
    moved one unit away from zero when the remainder is at least half the
    divisor, is within half a unit of the exact quotient. *)
Lemma round_half_away (aa bb : Z) :
  bb <> 0 ->
  let q := Z.quot aa bb in
  let r := Z.rem aa bb in
  let q' :=
    match Z.compare (Z.abs r * 2) (Z.abs bb) with
    | Lt => q
    | _ => if Z.sgn aa * Z.sgn bb <? 0 then q - 1 else q + 1
    end in
  2 * Z.abs (aa - q' * bb) <= Z.abs bb.
Proof.
  intros Hbb q r q'.
  assert (Hqr : aa = bb * q + r) by (apply Z.quot_rem'; exact Hbb).
  assert (Hr : Z.abs r < Z.abs bb) by (apply Z.rem_bound_abs; exact Hbb).
  assert (Hpos : 0 <= aa -> 0 <= r) by (intros; apply Z.rem_nonneg; assumption).
  assert (Hneg : aa <= 0 -> r <= 0) by (intros; apply Z.rem_nonpos; assumption).
  subst q'. destruct (Z.compare_spec (Z.abs r * 2) (Z.abs bb)) as [Heq | Hlt | Hgt].
  - destruct (Z.ltb_spec (Z.sgn aa * Z.sgn bb) 0); nia.
  - nia.
  - destruct (Z.ltb_spec (Z.sgn aa * Z.sgn bb) 0); nia.
Qed.

Lemma Qabs_half (aa bb q' : Z) :
  bb <> 0 ->
  2 * Z.abs (aa - q' * bb) <= Z.abs bb ->
  (Qabs (inject_Z q' - inject_Z aa / inject_Z bb) <= 1 # 2)%Q.
Proof.
  intros Hbb H. apply Qabs_Qle_condition.
  destruct bb as [| p | p]; [contradiction | |];
    unfold Qle, Qdiv, Qinv, Qminus, Qplus, Qopp, Qmult, inject_Z;
    cbn [Qnum Qden]; split; nia.
Qed.

Lemma scaledOperands_nonzero (d d2 : Decimal) :
  IsZero d2 = false -> snd (scaledOperands d d2) <> 0.
Proof.
  unfold IsZero, scaledOperands. intros H. apply Z.eqb_neq in H.
  destruct (Z.ltb_spec (exp d - exp d2 + DivisionPrecision) 0) as [He | He];
    cbn [snd]; [| exact H].
  assert (0 < 10 ^ (- (exp d - exp d2 + DivisionPrecision)))
    by (apply Z.pow_pos_nonneg; lia).
  nia.
Qed.

Lemma scaledOperands_ratio (d d2 : Decimal) :
  IsZero d2 = false ->
  (toQ d / toQ d2
   == inject_Z (fst (scaledOperands d d2)) / inject_Z (snd (scaledOperands d d2))
      * 10 ^ (- DivisionPrecision))%Q.
Proof.
  unfold IsZero, scaledOperands, toQ, DivisionPrecision. intros H.
  apply Z.eqb_neq in H.
  assert (Hv2 : ~ (inject_Z (value d2) == 0)%Q).
  { unfold Qeq. cbn. lia. }
  assert (Hp : forall n, ~ (10 ^ n == 0)%Q).
  { intros n. apply Qpower_not_0. discriminate. }
  destruct (Z.ltb_spec (exp d - exp d2 + 16) 0) as [He | He]; cbn [fst snd].
  - rewrite inject_Z_mult, Zpower_Qpower by lia.
    change (inject_Z 10) with 10%Q.
    replace (exp d) with (exp d2 + (- (- (exp d - exp d2 + 16)) + - (16))) at 1 by lia.
    rewrite !Qpower_plus by discriminate.
    rewrite (Qpower_opp 10 (- (exp d - exp d2 + 16))).
    field. repeat split; try apply Hp; exact Hv2.
  - rewrite inject_Z_mult, Zpower_Qpower by lia.
    change (inject_Z 10) with 10%Q.
    replace (exp d) with (exp d2 + ((exp d - exp d2 + 16) + - (16))) at 1 by lia.
    rewrite !Qpower_plus by discriminate.
    field. repeat split; try apply Hp; exact Hv2.
Qed.

Lemma Cmp_scaled (d d2 : Decimal) (r : Z) :
  let e := exp d - exp d2 + DivisionPrecision in
  Cmp (New (Z.abs r * 2)
           ((if e <? 0 then exp d else - DivisionPrecision + exp d2)
            + DivisionPrecision))
      (Abs d2)
  = Z.compare (Z.abs r * 2) (Z.abs (snd (scaledOperands d d2))).
Proof.
  unfold scaledOperands, Cmp, Abs, rescale, DivisionPrecision. cbv zeta.
  destruct (Z.ltb_spec (exp d - exp d2 + 16) 0) as [He | He]; cbn [value exp snd].
  - rewrite Z.min_l by lia.
    destruct (Z.ltb_spec (exp d + 16) (exp d + 16)); [lia |].
    destruct (Z.ltb_spec (exp d2) (exp d + 16)); [lia |].
    cbn [value]. rewrite Z.sub_diag, Z.mul_1_r.
    rewrite Z.abs_mul.
    rewrite (Z.abs_eq (10 ^ _)) by (apply Z.pow_nonneg; lia).
    do 3 f_equal. lia.
  - replace (Z.opp 16 + exp d2 + 16) with (exp d2) by lia.
    rewrite Z.min_id, Z.ltb_irrefl. cbn [value].
    now rewrite Z.sub_diag, !Z.mul_1_r.
Qed.

Lemma sgn_scaled (d d2 : Decimal) :
  Z.sgn (value d) * Z.sgn (value d2)
  = Z.sgn (fst (scaledOperands d d2)) * Z.sgn (snd (scaledOperands d d2)).
Proof.
  unfold scaledOperands, DivisionPrecision.
  destruct (Z.ltb_spec (exp d - exp d2 + 16) 0) as [He | He]; cbn [fst snd];
    rewrite Z.sgn_mul, (Z.sgn_pos (10 ^ _)) by (apply Z.pow_pos_nonneg; lia);
    lia.
Qed.

Lemma QuoRem_scaled (d d2 : Decimal) :
  let e := exp d - exp d2 + DivisionPrecision in
  let aa := fst (scaledOperands d d2) in
  let bb := snd (scaledOperands d d2) in
  QuoRem d d2 DivisionPrecision
  = (New (Z.quot aa bb) (- DivisionPrecision),
     New (Z.rem aa bb)
         (if e <? 0 then exp d else - DivisionPrecision + exp d2)).
Proof.
  unfold QuoRem, scaledOperands, DivisionPrecision. cbv zeta.
  replace (exp d - exp d2 - - (16)) with (exp d - exp d2 + 16) by lia.
  destruct (exp d - exp d2 + 16 <? 0); reflexivity.
Qed.

Lemma toQ_unit_step (q : Z) :
  (toQ (Sub (New q (- DivisionPrecision)) (New 1 (- DivisionPrecision)))
   == inject_Z (q - 1) * 10 ^ (- DivisionPrecision))%Q
  /\ (toQ (Add (New q (- DivisionPrecision)) (New 1 (- DivisionPrecision)))
      == inject_Z (q + 1) * 10 ^ (- DivisionPrecision))%Q.
Proof.
  rewrite toQ_Sub, toQ_Add. unfold toQ. cbn [value exp].
  unfold Z.sub. rewrite !inject_Z_plus, inject_Z_opp. split; ring.
Qed.

(** [Div] rounds the exact quotient to the nearest multiple of
    [10^-16]. *)
Lemma quotient_rounding (d d2 : Decimal) :
  IsZero d2 = false ->
  (Qabs (toQ (quotient d d2) - toQ d / toQ d2)
   <= (1 # 2) * 10 ^ (- DivisionPrecision))%Q.
Proof.
  intros Hz.
  pose proof (scaledOperands_nonzero d d2 Hz) as Hbb.
  pose proof (scaledOperands_ratio d d2 Hz) as Hratio.
  pose proof (round_half_away (fst (scaledOperands d d2))
                (snd (scaledOperands d d2)) Hbb) as Hround.
  cbv zeta in Hround.
  unfold quotient, DivRound. rewrite QuoRem_scaled. cbv zeta.
  cbn [value exp]. rewrite Cmp_scaled, sgn_scaled.
  set (aa := fst (scaledOperands d d2)) in *.
  set (bb := snd (scaledOperands d d2)) in *.
  set (q' := match Z.abs (Z.rem aa bb) * 2 ?= Z.abs bb with
             | Lt => Z.quot aa bb
             | _ => if Z.sgn aa * Z.sgn bb <? 0
                    then Z.quot aa bb - 1 else Z.quot aa bb + 1
             end) in *.
  assert (Hval :
    (toQ match (Z.abs (Z.rem aa bb) * 2 ?= Z.abs bb)%Z with
         | Lt => New (Z.quot aa bb) (- DivisionPrecision)%Z
         | _ => if (Z.sgn aa * Z.sgn bb <? 0)%Z
                then Sub (New (Z.quot aa bb) (- DivisionPrecision)%Z)
                         (New 1 (- DivisionPrecision)%Z)
                else Add (New (Z.quot aa bb) (- DivisionPrecision)%Z)
                         (New 1 (- DivisionPrecision)%Z)
         end
     == inject_Z q' * 10 ^ (- DivisionPrecision))%Q).
  { subst q'. destruct (toQ_unit_step (Z.quot aa bb)) as [Hs Ha].
    destruct (Z.abs (Z.rem aa bb) * 2 ?= Z.abs bb);
      try (destruct (Z.sgn aa * Z.sgn bb <? 0); assumption);
      reflexivity. }
  rewrite Hval, Hratio.
  setoid_replace
    (inject_Z q' * 10 ^ (- DivisionPrecision)
     - inject_Z aa / inject_Z bb * 10 ^ (- DivisionPrecision))%Q
    with ((inject_Z q' - inject_Z aa / inject_Z bb)
          * 10 ^ (- DivisionPrecision))%Q.
  2:{ field. unfold Qeq. cbn. lia. }
  rewrite Qabs_Qmult.
  rewrite (Qabs_pos (10 ^ (- DivisionPrecision))) by discriminate.
  apply Qmult_le_compat_r; [| discriminate].
  apply Qabs_half; assumption.
Qed.

(** ** The totals *)

Lemma applyDocumentDiscount_Some (disc : Discount) (total : Decimal) :
  applyDocumentDiscount (Some disc) total = Ok (discountedTotal disc total).
Proof.
  destruct disc; reflexivity.
Qed.

Lemma getDiscountPercent_amount (a twd : Decimal) :
  getDiscountPercent (DiscountAmount a) twd = Div (Mul a Hundred) twd.
Proof. reflexivity. Qed.

Lemma getDiscountPercent_percent (p twd : Decimal) :
  getDiscountPercent (DiscountPercent p) twd = Ok p.
Proof. reflexivity. Qed.

(** A round of the tax loop never panics, and adds the item's
    contribution when the item has a tax. *)
Lemma addItemTax_contribution (dp acc : Decimal) (item : Item.Item) :
  addItemTax dp acc item =
  Ok (match Item.Tax item with
      | Some _ => Add acc (taxContribution dp item)
      | None => acc
      end).
Proof.
  unfold addItemTax, taxContribution.
  destruct (Item.Tax item) as [[p | a] |]; reflexivity.
Qed.

Lemma addItemTax_toQ (dp acc : Decimal) (item : Item.Item) :
  exists acc', addItemTax dp acc item = Ok acc'
               /\ (toQ acc' == toQ acc + toQ (taxContribution dp item))%Q.
Proof.
  rewrite addItemTax_contribution.
  destruct (Item.Tax item) as [t |] eqn:Ht; eexists; split; try reflexivity.
  - apply toQ_Add.
  - unfold taxContribution. rewrite Ht, toQ_Zero. ring.
Qed.

Lemma sumDiscountedTaxes_toQ (dp : Decimal) (items : list Item.Item) :
  forall acc,
  exists r, sumDiscountedTaxes dp acc items = Ok r
            /\ (toQ r == toQ acc
                         + Qsum (map (fun i => toQ (taxContribution dp i)) items))%Q.
Proof.
  induction items as [| item rest IH]; intros acc; cbn [sumDiscountedTaxes map Qsum].
  - exists acc. split; [reflexivity | ring].
  - destruct (addItemTax_toQ dp acc item) as (acc' & Hstep & Hacc').
    rewrite Hstep. cbn [obind].
    destruct (IH acc') as (r & Hr & Hsum).
    exists r. split; [exact Hr |]. rewrite Hsum, Hacc'. ring.
Qed.

Lemma fold_Add_toQ (f : Item.Item -> Decimal) (items : list Item.Item) :
  forall acc,
    (toQ (fold_left (fun a item => Add a (f item)) items acc)
     == toQ acc + Qsum (map (fun i => toQ (f i)) items))%Q.
Proof.
  induction items as [| item rest IH]; intros acc; cbn [fold_left map Qsum].
  - ring.
  - rewrite IH, toQ_Add. ring.
Qed.

Lemma sumItemTotals_toQ (items : list Item.Item) :
  (toQ (sumItemTotals items)
   == Qsum (map (fun i => toQ (Item.totalWithoutTaxAndWithDiscount i)) items))%Q.
Proof.
  unfold sumItemTotals. rewrite fold_Add_toQ, toQ_Zero. ring.
Qed.

Lemma sumItemTaxes_toQ (items : list Item.Item) :
  (toQ (sumItemTaxes items)
   == Qsum (map (fun i => toQ (Item.taxWithDiscount i)) items))%Q.
Proof.
  unfold sumItemTaxes. rewrite fold_Add_toQ, toQ_Zero. ring.
Qed.

(** The totals of a document without a document discount. *)
Lemma computeTotals_no_discount (d : Document.Document) :
  Document.Discount d = None ->
  computeTotals d =
  Ok {| total := sumItemTotals (Document.Items d);
        totalWithDiscount := Zero;
        discountPercent := None;
        totalTax := sumItemTaxes (Document.Items d);
        totalWithTax := Add (sumItemTotals (Document.Items d))
                            (sumItemTaxes (Document.Items d)) |}.
Proof.
  intros H. unfold computeTotals. rewrite H. reflexivity.
Qed.

(** The totals of a document with a document discount, once the
    effective percentage is known. *)
Lemma computeTotals_discount (d : Document.Document) (disc : Discount)
    (dp : Decimal) :
  Document.Discount d = Some disc ->
  getDiscountPercent disc (discountedTotal disc (sumItemTotals (Document.Items d)))
  = Ok dp ->
  exists tax,
    sumDiscountedTaxes dp Zero (Document.Items d) = Ok tax
    /\ computeTotals d =
       Ok {| total := sumItemTotals (Document.Items d);
             totalWithDiscount :=
               discountedTotal disc (sumItemTotals (Document.Items d));
             discountPercent := Some dp;
             totalTax := tax;
             totalWithTax :=
               Add (discountedTotal disc (sumItemTotals (Document.Items d))) tax |}.
Proof.
  intros Hd Hdp.
  destruct (sumDiscountedTaxes_toQ dp (Document.Items d) Zero) as (tax & Htax & _).
  exists tax. split; [exact Htax |].
  unfold computeTotals. rewrite Hd, applyDocumentDiscount_Some. cbn [obind].
  rewrite Hdp. cbn [obind]. rewrite Htax. reflexivity.
Qed.

(** No effective percentage, no totals. *)
Lemma computeTotals_panic (d : Document.Document) (disc : Discount) (msg : string) :
  Document.Discount d = Some disc ->
  getDiscountPercent disc (discountedTotal disc (sumItemTotals (Document.Items d)))
  = Panic msg ->
  computeTotals d = Panic msg.
Proof.
  intros Hd Hdp. unfold computeTotals.
  rewrite Hd, applyDocumentDiscount_Some. cbn [obind]. now rewrite Hdp.
Qed.

(** Two units at 100 taxed at 20 percent: 200, 40 and 240 without a
    document discount; with a discount of 50 the total after discount is
    150, the effective percentage 33.33..., the tax 26.66...67 and the
    grand total 176.66...67. *)
Example computeTotals_scenarios :
  computeTotals (Sample.document [Sample.widget] None "" "")
  = Ok {| total := New 200 0;
          totalWithDiscount := Zero;
          discountPercent := None;
          totalTax := New 400000000000000000 (-16);
          totalWithTax := New 2400000000000000000 (-16) |}
  /\ computeTotals
       (Sample.document [Sample.widget] (Some (DiscountAmount (New 50 0))) "" "")
     = Ok {| total := New 200 0;
             totalWithDiscount := New 150 0;
             discountPercent := Some (New 333333333333333333 (-16));
             totalTax := New 266666666666666667 (-16);
             totalWithTax := New 1766666666666666667 (-16) |}.
Proof. split; reflexivity. Qed.

(** A decimal is zero exactly when the number it stands for is. *)
Lemma IsZero_toQ (d : Decimal) : IsZero d = true <-> (toQ d == 0)%Q.
Proof.
  unfold IsZero, toQ. rewrite Z.eqb_eq. split.
  - intros ->. ring.
  - intros H. apply Qmult_integral in H. destruct H as [H | H].
    + unfold Qeq in H. cbn in H. lia.
    + exfalso. revert H. apply Qpower_not_0. exact ten_nonzero.
Qed.

(** A panic of the totals is a panic of [appendTotal]. *)
Lemma appendTotal_panic (env : Env) (d : Document.Document) (msg : string)
    (pdf : Fpdf) :
  computeTotals d = Panic msg -> appendTotal env d pdf = Panic msg.
Proof.
  intros H. unfold appendTotal, appendTotalWith, bind, lift. now rewrite H.
Qed.

(** C2: under a document discount, the tax total is the sum over the
    items of their contributions: a tax amount unchanged, whatever the
    discount and equal to the item's tax without any document discount; a
    tax percent [p] as
    [p * (itemTotal - discountPercent * itemTotal / 100) / 100]. *)
Theorem C2_tax_under_document_discount (d : Document.Document) (disc : Discount)
    (dp : Decimal) :
  Document.Discount d = Some disc ->
  getDiscountPercent disc (discountedTotal disc (sumItemTotals (Document.Items d)))
  = Ok dp ->
  exists t,
    computeTotals d = Ok t
    /\ discountPercent t = Some dp
    /\ (toQ (totalTax t)
        == Qsum (map (fun item => toQ (taxContribution dp item)) (Document.Items d)))%Q
    /\ (forall item a,
          Item.Tax item = Some (TaxAmount a) ->
          taxContribution dp item = a /\ Item.taxWithDiscount item = a)
    /\ (forall item p,
          Item.Tax item = Some (TaxPercent p) ->
          let itemTotal := Item.totalWithoutTaxAndWithDiscount item in
          taxContribution dp item
          = quotient
              (Mul p (Sub itemTotal (quotient (Mul dp itemTotal) Hundred)))
              Hundred).
Proof.
  intros Hd Hdp.
  destruct (computeTotals_discount d disc dp Hd Hdp) as (tax & Htax & Ht).
  eexists. split; [exact Ht |]. cbn [discountPercent totalTax].
  split; [reflexivity |]. split.
  - destruct (sumDiscountedTaxes_toQ dp (Document.Items d) Zero) as (r & Hr & Hsum).
    rewrite Htax in Hr. injection Hr as <-. rewrite Hsum, toQ_Zero. ring.
  - split.
    + intros item a Ha. unfold taxContribution, Item.taxWithDiscount.
      rewrite Ha. split; reflexivity.
    + intros item p Hp. unfold taxContribution. rewrite Hp. reflexivity.
Qed.

Lemma C2_tax_under_document_discount_witness :
  exists t,
    computeTotals
      (Sample.document [Sample.widget; Sample.flatTaxed]
                       (Some (DiscountPercent (New 10 0))) "" "")
    = Ok t
    /\ discountPercent t = Some (New 10 0)
    /\ (toQ (totalTax t) == 41)%Q.
Proof.
  destruct (C2_tax_under_document_discount
              (Sample.document [Sample.widget; Sample.flatTaxed]
                               (Some (DiscountPercent (New 10 0))) "" "")
              (DiscountPercent (New 10 0)) (New 10 0) eq_refl eq_refl)
    as (t & Ht & Hdp & Htax & _).
  exists t. split; [exact Ht |]. split; [exact Hdp |].
  rewrite Htax. vm_compute. reflexivity.
Defined.

(** C3: under an amount discount [a] the total after discount is
    [total - a], and the effective percentage is [a * 100] divided by that
    discounted total, as [Div] rounds it to sixteen fractional digits;
    under a percent discount [p] the total after discount is
    [total - total * p / 100], with [p / 100] rounded likewise and exact
    for a [p] of at most fourteen fractional digits, and the percentage
    is [p] itself. *)
Theorem C3_document_discount (d : Document.Document) (disc : Discount) :
  Document.Discount d = Some disc ->
  let sum := sumItemTotals (Document.Items d) in
  applyDocumentDiscount (Document.Discount d) sum = Ok (discountedTotal disc sum)
  /\ match disc with
     | DiscountAmount a =>
         discountedTotal disc sum = Sub sum a
         /\ (toQ (Sub sum a) == toQ sum - toQ a)%Q
         /\ getDiscountPercent disc (Sub sum a) = Div (Mul a Hundred) (Sub sum a)
         /\ (IsZero (Sub sum a) = false ->
             exists t dp,
               computeTotals d = Ok t
               /\ total t = sum
               /\ totalWithDiscount t = Sub sum a
               /\ discountPercent t = Some dp
               /\ dp = quotient (Mul a Hundred) (Sub sum a)
               /\ (Qabs (toQ dp - toQ a * 100 / (toQ sum - toQ a))
                   <= (1 # 2) * 10 ^ (- DivisionPrecision))%Q)
     | DiscountPercent p =>
         exists t,
           computeTotals d = Ok t
           /\ total t = sum
           /\ totalWithDiscount t = Sub sum (Mul sum (quotient p Hundred))
           /\ discountPercent t = Some p
           /\ (toQ (totalWithDiscount t)
               == toQ sum - toQ sum * toQ (quotient p Hundred))%Q
           /\ (Qabs (toQ (quotient p Hundred) - toQ p / 100)
               <= (1 # 2) * 10 ^ (- DivisionPrecision))%Q
           /\ (-14 <= exp p ->
               (toQ (totalWithDiscount t) == toQ sum - toQ sum * toQ p / 100)%Q)
     end.
Proof.
  intros Hd sum. split.
  { rewrite Hd. apply applyDocumentDiscount_Some. }
  destruct disc as [p | a].
  - destruct (computeTotals_discount d (DiscountPercent p) p Hd eq_refl)
      as (tax & _ & Ht).
    eexists. split; [exact Ht |]. cbn [total totalWithDiscount discountPercent].
    cbn [discountedTotal]. fold sum.
    split; [reflexivity |]. split; [reflexivity |]. split; [reflexivity |].
    split; [| split].
    + rewrite toQ_Sub, toQ_Mul. reflexivity.
    + pose proof (quotient_rounding p Hundred eq_refl) as H.
      rewrite toQ_Hundred in H. exact H.
    + intros Hp. rewrite toQ_Sub, toQ_Mul, toQ_quotient_Hundred by exact Hp.
      field.
  - split; [reflexivity |]. split; [apply toQ_Sub |].
    split; [reflexivity |].
    intros Hz.
    destruct (computeTotals_discount d (DiscountAmount a)
                (quotient (Mul a Hundred) (Sub sum a)) Hd) as (tax & _ & Ht).
    { rewrite getDiscountPercent_amount. apply Div_nonzero. exact Hz. }
    eexists. eexists. split; [exact Ht |].
    cbn [total totalWithDiscount discountPercent].
    split; [reflexivity |]. split; [reflexivity |]. split; [reflexivity |].
    split; [reflexivity |].
    pose proof (quotient_rounding (Mul a Hundred) (Sub sum a) Hz) as H.
    rewrite toQ_Mul, toQ_Sub, toQ_Hundred in H. exact H.
Qed.

Lemma C3_document_discount_witness :
  exists t,
    computeTotals
      (Sample.document [Sample.widget] (Some (DiscountPercent (New 25 0))) "" "")
    = Ok t
    /\ total t = New 200 0
    /\ (toQ (totalWithDiscount t) == 150)%Q
    /\ discountPercent t = Some (New 25 0).
Proof.
  destruct (C3_document_discount
              (Sample.document [Sample.widget] (Some (DiscountPercent (New 25 0))) "" "")
              (DiscountPercent (New 25 0)) eq_refl)
    as (_ & t & Ht & Htotal & _ & Hdp & _ & _ & Hq).
  exists t. split; [exact Ht |]. split; [exact Htotal |]. split; [| exact Hdp].
  rewrite Hq by (cbn; lia). vm_compute. reflexivity.
Defined.

(** C4: without a document discount the grand total is the sum of the
    items' totals plus the sum of the items' taxes. *)
Theorem C4_grand_total_without_discount (d : Document.Document) :
  Document.Discount d = None ->
  exists t,
    computeTotals d = Ok t
    /\ totalWithTax t
       = Add (sumItemTotals (Document.Items d)) (sumItemTaxes (Document.Items d))
    /\ (toQ (totalWithTax t)
        == Qsum (map (fun item => toQ (Item.totalWithoutTaxAndWithDiscount item))
                     (Document.Items d))
           + Qsum (map (fun item => toQ (Item.taxWithDiscount item))
                       (Document.Items d)))%Q.
Proof.
  intros Hd. eexists. split; [apply computeTotals_no_discount, Hd |].
  cbn [totalWithTax]. split; [reflexivity |].
  rewrite toQ_Add, sumItemTotals_toQ, sumItemTaxes_toQ. reflexivity.
Qed.

Lemma C4_grand_total_without_discount_witness :
  exists t,
    computeTotals (Sample.document [Sample.widget; Sample.flatTaxed] None "" "")
    = Ok t
    /\ (toQ (totalWithTax t) == 295)%Q.
Proof.
  destruct (C4_grand_total_without_discount
              (Sample.document [Sample.widget; Sample.flatTaxed] None "" "") eq_refl)
    as (t & Ht & _ & Hq).
  exists t. split; [exact Ht |]. rewrite Hq. vm_compute. reflexivity.
Defined.

(** C5, as stated, fails: for two units at 100 and no document discount
    the total is 200 and the total after discount is zero. *)
Lemma C5_total_after_discount_is_not_total :
  exists t,
    computeTotals (Sample.document [Sample.widget] None "" "") = Ok t
    /\ total t = New 200 0
    /\ totalWithDiscount t = Zero
    /\ ~ (toQ (totalWithDiscount t) == toQ (total t))%Q.
Proof.
  eexists. split; [reflexivity |]. cbn [total totalWithDiscount].
  split; [reflexivity |]. split; [reflexivity |]. discriminate.
Qed.

(** C5, amended: without a document discount the total after discount
    keeps its initial value zero, and the grand total is computed from
    the total itself, [total + totalTax]. *)
Theorem C5_total_after_discount_without_discount (d : Document.Document) :
  Document.Discount d = None ->
  exists t,
    computeTotals d = Ok t
    /\ total t = sumItemTotals (Document.Items d)
    /\ totalWithDiscount t = Zero
    /\ totalWithTax t = Add (total t) (totalTax t)
    /\ (toQ (totalWithTax t) == toQ (total t) + toQ (totalTax t))%Q.
Proof.
  intros Hd. eexists. split; [apply computeTotals_no_discount, Hd |].
  cbn [total totalWithDiscount totalWithTax totalTax].
  repeat split. apply toQ_Add.
Qed.

Lemma C5_total_after_discount_without_discount_witness :
  exists t,
    computeTotals (Sample.document [Sample.widget] None "" "") = Ok t
    /\ totalWithDiscount t = Zero
    /\ (toQ (totalWithTax t) == 240)%Q.
Proof.
  destruct (C5_total_after_discount_without_discount
              (Sample.document [Sample.widget] None "" "") eq_refl)
    as (t & Ht & Htotal & Hz & Hsum & _).
  exists t. split; [exact Ht |]. split; [exact Hz |].
  injection Ht as <-. vm_compute. reflexivity.
Defined.

(** ** The layout *)

(** Running a drawing computation step by step. *)
Ltac run :=
  cbv beta iota zeta delta
    [gofpdf.SetXY setFill titleCell
     gofpdf.GetY gofpdf.SetX gofpdf.SetY gofpdf.SetFont gofpdf.SetFillColor
     gofpdf.SetTextColor gofpdf.Rect gofpdf.CellFormat gofpdf.AddPage
     gofpdf.SetRightMargin gofpdf.GetFontSize gofpdf.SetMargins
     gofpdf.SetJavascript bind ret call callr lift gofpdf.emit gofpdf.moveTo
     gofpdf.x gofpdf.y gofpdf.page gofpdf.lMargin gofpdf.tMargin
     gofpdf.rMargin gofpdf.fontSizePt gofpdf.ops Z.eqb fst snd].

(** The table titles: ten drawing calls on the current page, five
    millimetres below the cursor, and no other change than the cursor and
    the font size. *)
Lemma drawsTableTitles_run (env : Env) (d : Document.Document) (pdf : Fpdf) :
  drawsTableTitles env d pdf =
  Ok (tt,
      gofpdf.mk
        (ItemColTotalTTCOffset env + (190 - ItemColTotalTTCOffset env))%Q
        (gofpdf.y pdf + 5)%Q (gofpdf.page pdf) (gofpdf.lMargin pdf)
        (gofpdf.tMargin pdf) (gofpdf.rMargin pdf) 8%Q
        (gofpdf.ops pdf ++ titleOps env d (gofpdf.page pdf) (gofpdf.y pdf))).
Proof.
  destruct pdf as [x y page lM tM rM size ops].
  unfold drawsTableTitles, titleOps. run.
  repeat rewrite <- app_assoc. reflexivity.
Qed.

Lemma appendColTo_run (env : Env) (item : Item.Item) (options : Options)
    (pdf : Fpdf) :
  appendColTo env item options pdf =
  Ok (tt,
      gofpdf.mk (gofpdf.lMargin pdf)
        (gofpdf.y pdf + rowHeight env options item)%Q (gofpdf.page pdf)
        (gofpdf.lMargin pdf) (gofpdf.tMargin pdf) (gofpdf.rMargin pdf)
        (gofpdf.fontSizePt pdf)
        (gofpdf.ops pdf
         ++ [gofpdf.OpItemRow (gofpdf.page pdf) (gofpdf.x pdf) (gofpdf.y pdf)
               item options])).
Proof. reflexivity. Qed.

(** One round of the item loop: the row, then, when the row crossed the
    threshold, one page break followed by the table titles and the row
    font; the cursor ends at the next row. *)
Lemma appendItem_run (env : Env) (d : Document.Document) (item : Item.Item)
    (pdf : Fpdf) :
  appendItem env d item pdf =
  Ok (checkItemTax d item,
      gofpdf.mk (gofpdf.lMargin pdf)
        (nextRowY env d (gofpdf.tMargin pdf) (gofpdf.y pdf) item)
        (if crosses env d (gofpdf.y pdf) item
         then S (gofpdf.page pdf) else gofpdf.page pdf)
        (gofpdf.lMargin pdf) (gofpdf.tMargin pdf) (gofpdf.rMargin pdf)
        (if crosses env d (gofpdf.y pdf) item
         then 8%Q else gofpdf.fontSizePt pdf)
        (gofpdf.ops pdf
         ++ gofpdf.OpItemRow (gofpdf.page pdf) (gofpdf.x pdf) (gofpdf.y pdf)
              (checkItemTax d item) (Document.Options d)
         :: (if crosses env d (gofpdf.y pdf) item
             then gofpdf.OpAddPage
                  :: titleOps env d (S (gofpdf.page pdf)) (gofpdf.tMargin pdf)
                  ++ [gofpdf.OpSetFont "Helvetica" "" 8]
             else []))).
Proof.
  destruct pdf as [x y page lM tM rM size ops].
  unfold appendItem, nextRowY, crosses.
  unfold bind at 1. rewrite appendColTo_run.
  cbn [gofpdf.x gofpdf.y gofpdf.page gofpdf.lMargin gofpdf.tMargin
       gofpdf.rMargin gofpdf.fontSizePt gofpdf.ops].
  unfold bind at 1. unfold gofpdf.GetY at 1.
  cbn [gofpdf.x gofpdf.y gofpdf.page gofpdf.lMargin gofpdf.tMargin
       gofpdf.rMargin gofpdf.fontSizePt gofpdf.ops].
  destruct (Qgtb (y + rowHeight env (Document.Options d) (checkItemTax d item))
                 (MaxPageHeight env)).
  - unfold bind at 1. unfold bind at 1. unfold gofpdf.AddPage at 1.
    unfold call at 1. unfold bind at 1. rewrite drawsTableTitles_run. run.
    repeat rewrite <- app_assoc. reflexivity.
  - run. reflexivity.
Qed.

(** The whole loop: the items with their tax checked, the trace of the
    rows, one page more per crossing, the margins untouched. *)
Lemma appendItemsFrom_run (env : Env) (d : Document.Document)
    (items : list Item.Item) :
  forall pdf,
  exists pdf',
    appendItemsFrom env d items pdf = Ok (map (checkItemTax d) items, pdf')
    /\ gofpdf.ops pdf'
       = gofpdf.ops pdf
         ++ rowsTrace env d (gofpdf.lMargin pdf) (gofpdf.tMargin pdf)
              (gofpdf.page pdf) (gofpdf.x pdf) (gofpdf.y pdf) items
    /\ gofpdf.page pdf'
       = (gofpdf.page pdf
          + crossings env d (gofpdf.tMargin pdf) (gofpdf.y pdf) items)%nat
    /\ gofpdf.lMargin pdf' = gofpdf.lMargin pdf
    /\ gofpdf.tMargin pdf' = gofpdf.tMargin pdf.
Proof.
  induction items as [| item rest IH]; intros pdf.
  - exists pdf. cbn. rewrite app_nil_r, Nat.add_0_r. repeat split.
  - cbn [appendItemsFrom map rowsTrace crossings].
    unfold bind at 1. rewrite appendItem_run. unfold bind at 1.
    match goal with
    | |- context [appendItemsFrom env d rest ?p] =>
        destruct (IH p) as (pdf' & Hrun & Hops & Hpage & HlM & HtM)
    end.
    exists pdf'. rewrite Hrun.
    cbn [gofpdf.x gofpdf.y gofpdf.page gofpdf.lMargin gofpdf.tMargin
         gofpdf.ops] in Hops, Hpage, HlM, HtM.
    split; [reflexivity |]. split; [| split; [| split; assumption]].
    + rewrite Hops. rewrite <- app_assoc. f_equal. cbn [app]. f_equal.
      destruct (crosses env d (gofpdf.y pdf) item).
      * cbn [app]. rewrite <- app_assoc. reflexivity.
      * reflexivity.
    + rewrite Hpage. destruct (crosses env d (gofpdf.y pdf) item); lia.
Qed.

Lemma countAddPage_app (l l' : list gofpdf.Op) :
  countAddPage (l ++ l') = (countAddPage l + countAddPage l')%nat.
Proof.
  unfold countAddPage. now rewrite filter_app, length_app.
Qed.

(** The table titles contain no page break. *)
(** Drawing calls that all land on a page include no page break. *)
Lemma forallb_onPage_countAddPage (page : nat) (l : list gofpdf.Op) :
  forallb (onPage page) l = true -> countAddPage l = 0%nat.
Proof.
  unfold countAddPage. induction l as [| op l IH]; [reflexivity |].
  cbn [forallb filter]. intros H. apply andb_prop in H. destruct H as [Hop Hl].
  destruct op; cbn [isAddPage]; try discriminate Hop; apply IH; exact Hl.
Qed.

Lemma countAddPage_titleOps (env : Env) (d : Document.Document) (page : nat)
    (y0 : Q) :
  countAddPage (titleOps env d page y0) = 0%nat.
Proof. reflexivity. Qed.

(** The trace of the rows has exactly one page break per crossing. *)
Lemma countAddPage_rowsTrace (env : Env) (d : Document.Document) (left top : Q)
    (items : list Item.Item) :
  forall page x y,
    countAddPage (rowsTrace env d left top page x y items)
    = crossings env d top y items.
Proof.
  induction items as [| item rest IH]; intros page x y; [reflexivity |].
  cbn [rowsTrace crossings].
  change (countAddPage (?op :: ?l))
    with ((if isAddPage op then 1 else 0) + countAddPage l)%nat at 1.
  cbn [isAddPage]. destruct (crosses env d y item).
  - change (countAddPage (gofpdf.OpAddPage :: ?l))
      with (S (countAddPage l)).
    rewrite countAddPage_app, countAddPage_titleOps.
    change (countAddPage (gofpdf.OpSetFont ?f ?s ?z :: ?l))
      with (countAddPage l).
    rewrite IH. reflexivity.
  - rewrite IH. reflexivity.
Qed.

(** In the trace of the rows every page break is followed at once by the
    table titles. *)
Lemma TitlesAfterBreaks_rowsTrace (env : Env) (d : Document.Document)
    (left top : Q) (items : list Item.Item) :
  forall page x y,
    TitlesAfterBreaks env d top (rowsTrace env d left top page x y items).
Proof.
  induction items as [| item rest IH]; intros page x y; cbn [rowsTrace].
  - constructor.
  - apply TitlesAfterBreaks_call; [reflexivity |].
    destruct (crosses env d y item).
    + apply TitlesAfterBreaks_break. apply IH.
    + apply IH.
Qed.

(** [appendItems] returns, and leaves in the document the items with
    their tax checked: [appendTotal], which runs later, reads these. *)
Lemma appendItems_items (env : Env) (d : Document.Document) (pdf : Fpdf) :
  exists pdf',
    appendItems env d pdf
    = Ok (Document.setItems d (map (checkItemTax d) (Document.Items d)), pdf').
Proof.
  unfold appendItems. unfold bind at 1. rewrite drawsTableTitles_run.
  unfold bind at 1. unfold gofpdf.SetX at 1. unfold call at 1.
  unfold bind at 1. unfold gofpdf.GetY at 1.
  unfold bind at 1. unfold gofpdf.SetY at 1. unfold call at 1.
  unfold bind at 1. unfold gofpdf.SetFont at 1. unfold call at 1.
  unfold bind at 1.
  match goal with
  | |- context [appendItemsFrom env d (Document.Items d) ?p] =>
      destruct (appendItemsFrom_run env d (Document.Items d) p)
        as (pdf' & Hrun & _)
  end.
  exists pdf'. rewrite Hrun. reflexivity.
Qed.

(** C6: the item loop returns, and its drawing calls are the trace of the
    rows: after each row that crosses the threshold exactly one page
    break, followed at once by the table titles, before the next row.
    The page breaks in the trace, and the pages added, are as many as the
    crossings. *)
Theorem C6_one_page_break_per_crossing (env : Env) (d : Document.Document)
    (items : list Item.Item) (pdf : Fpdf) :
  exists pdf' trace,
    appendItemsFrom env d items pdf = Ok (map (checkItemTax d) items, pdf')
    /\ gofpdf.ops pdf' = gofpdf.ops pdf ++ trace
    /\ trace = rowsTrace env d (gofpdf.lMargin pdf) (gofpdf.tMargin pdf)
                 (gofpdf.page pdf) (gofpdf.x pdf) (gofpdf.y pdf) items
    /\ countAddPage trace
       = crossings env d (gofpdf.tMargin pdf) (gofpdf.y pdf) items
    /\ gofpdf.page pdf'
       = (gofpdf.page pdf
          + crossings env d (gofpdf.tMargin pdf) (gofpdf.y pdf) items)%nat
    /\ TitlesAfterBreaks env d (gofpdf.tMargin pdf) trace.
Proof.
  destruct (appendItemsFrom_run env d items pdf)
    as (pdf' & Hrun & Hops & Hpage & _).
  exists pdf'. eexists. split; [exact Hrun |]. split; [exact Hops |].
  split; [reflexivity |]. split; [apply countAddPage_rowsTrace |].
  split; [exact Hpage |]. apply TitlesAfterBreaks_rowsTrace.
Qed.

(** Four rows of 100 millimetres from ordinate 100: the second row
    crosses the threshold, and the loop ends on the next page. *)
Example appendItemsFrom_sample :
  let d := Sample.document
             [Sample.widget; Sample.plain; Sample.widget; Sample.widget]
             None "" "" in
  crossings Sample.env d 20 100 (Document.Items d) = 1%nat
  /\ exists items pdf',
       appendItemsFrom Sample.env d (Document.Items d) Sample.surface
       = Ok (items, pdf')
       /\ gofpdf.page pdf' = 2%nat
       /\ countAddPage (gofpdf.ops pdf') = 1%nat.
Proof.
  cbv zeta. split; [reflexivity |].
  eexists. eexists. split; [vm_compute; reflexivity |].
  split; reflexivity.
Qed.

(** [appendNotes] returns with the cursor at the ordinate it found. *)
Lemma appendNotes_run (env : Env) (d : Document.Document) (pdf : Fpdf) :
  exists pdf',
    appendNotes env d pdf = Ok (tt, pdf') /\ gofpdf.y pdf' = gofpdf.y pdf.
Proof.
  unfold appendNotes.
  destruct (String.length (Document.Notes d) =? 0)%nat.
  - exists pdf. split; reflexivity.
  - run. eexists. split; reflexivity.
Qed.

(** Without notes [appendNotes] does nothing at all. *)
Lemma appendNotes_empty (env : Env) (d : Document.Document) (pdf : Fpdf) :
  Document.Notes d = ""%string -> appendNotes env d pdf = Ok (tt, pdf).
Proof.
  intros H. unfold appendNotes. rewrite H. reflexivity.
Qed.

Lemma discountDescription_percent (env : Env) (ac : accounting.Accounting)
    (p sum twd : Decimal) :
  exists s, discountDescription env ac (DiscountPercent p) sum twd = Ok s.
Proof. eexists. reflexivity. Qed.

Lemma discountDescription_amount (env : Env) (ac : accounting.Accounting)
    (a sum twd : Decimal) :
  IsZero sum = false ->
  exists s, discountDescription env ac (DiscountAmount a) sum twd = Ok s.
Proof.
  intros H. unfold discountDescription. cbn [getDiscount String.eqb Ascii.eqb Bool.eqb].
  rewrite Div_nonzero by exact H. eexists. reflexivity.
Qed.

Lemma discountDescription_zero_total (env : Env) (ac : accounting.Accounting)
    (a sum twd : Decimal) :
  IsZero sum = true ->
  discountDescription env ac (DiscountAmount a) sum twd
  = Panic "decimal division by 0".
Proof.
  intros H. unfold discountDescription. cbn [getDiscount String.eqb Ascii.eqb Bool.eqb].
  now rewrite Div_zero by exact H.
Qed.

(** What [appendTotal] does when it returns: everything it draws is on
    the page it started on, at ordinates fixed by the ordinate of the
    cursor, and the cursor moves down by the height of the block. *)
Lemma appendTotal_effect (env : Env) (d : Document.Document) (pdf : Fpdf) :
  match appendTotal env d pdf with
  | Panic _ => True
  | Ok (_, pdf') =>
      exists l,
        gofpdf.ops pdf' = gofpdf.ops pdf ++ l
        /\ forallb (onPage (gofpdf.page pdf)) l = true
        /\ ordinates l = totalsOrdinates d (gofpdf.y pdf)
        /\ gofpdf.page pdf' = gofpdf.page pdf
        /\ (gofpdf.y pdf' == gofpdf.y pdf + totalsBlockHeight d)%Q
  end.
Proof.
  destruct pdf as [x y page lM tM rM size ops].
  unfold appendTotal, appendTotalWith, totalsBlockHeight, totalsOrdinates. cbv zeta.
  unfold bind at 1. unfold lift at 1.
  destruct (computeTotals d) as [t | msg]; [| exact I].
  cbv beta iota.
  destruct (Document.Discount d) as [disc |].
  - match goal with
    | |- context [lift ?c] => destruct c as [desc | msg]
    end.
    + run. eexists. split.
      { repeat rewrite <- app_assoc. cbn [app]. reflexivity. }
      cbn [forallb onPage andb ordinates flat_map app].
      rewrite Nat.eqb_refl. cbn [andb].
      split; [reflexivity |]. split; [reflexivity |]. split; [reflexivity |].
      ring.
    + run. exact I.
  - run. eexists. split.
    { repeat rewrite <- app_assoc. cbn [app]. reflexivity. }
    cbn [forallb onPage andb ordinates flat_map app].
    rewrite Nat.eqb_refl. cbn [andb].
    split; [reflexivity |]. split; [reflexivity |]. split; [reflexivity |].
    ring.
Qed.

Lemma appendTotal_run (env : Env) (d : Document.Document) (pdf pdf' : Fpdf) :
  appendTotal env d pdf = Ok (tt, pdf') ->
  exists l,
    gofpdf.ops pdf' = gofpdf.ops pdf ++ l
    /\ forallb (onPage (gofpdf.page pdf)) l = true
    /\ ordinates l = totalsOrdinates d (gofpdf.y pdf)
    /\ gofpdf.page pdf' = gofpdf.page pdf
    /\ (gofpdf.y pdf' == gofpdf.y pdf + totalsBlockHeight d)%Q.
Proof.
  intros H. pose proof (appendTotal_effect env d pdf) as E.
  rewrite H in E. exact E.
Qed.

Lemma appendTotal_returns_when (env : Env) (d : Document.Document) (t : Totals)
    (pdf : Fpdf) :
  computeTotals d = Ok t ->
  (forall ac disc,
      Document.Discount d = Some disc ->
      exists s,
        discountDescription env ac disc (total t) (totalWithDiscount t) = Ok s) ->
  exists pdf', appendTotal env d pdf = Ok (tt, pdf').
Proof.
  intros Ht Hdesc.
  unfold appendTotal, appendTotalWith. unfold bind at 1. unfold lift at 1. rewrite Ht.
  destruct (Document.Discount d) as [disc |].
  - match goal with
    | |- context [lift (discountDescription env ?ac disc ?a ?b)] =>
        destruct (Hdesc ac disc eq_refl) as (s & Hs); rewrite Hs
    end.
    unfold lift. run. eexists. reflexivity.
  - run. eexists. reflexivity.
Qed.

(** [appendTotal] returns exactly when no division has a zero divisor. *)
Lemma appendTotal_returns (env : Env) (d : Document.Document) (pdf : Fpdf) :
  totalsDrawable d = true ->
  exists pdf', appendTotal env d pdf = Ok (tt, pdf').
Proof.
  unfold totalsDrawable. intros Hdraw.
  destruct (Document.Discount d) as [[p | a] |] eqn:Hd.
  - destruct (computeTotals_discount d (DiscountPercent p) p Hd eq_refl)
      as (tax & _ & Ht).
    apply (appendTotal_returns_when env d _ pdf Ht).
    intros ac disc Hdisc. rewrite Hd in Hdisc. injection Hdisc as <-.
    apply discountDescription_percent.
  - apply andb_prop in Hdraw. destruct Hdraw as [Htwd Hsum].
    apply negb_true_iff in Htwd. apply negb_true_iff in Hsum.
    destruct (computeTotals_discount d (DiscountAmount a)
                (quotient (Mul a Hundred) (Sub (sumItemTotals (Document.Items d)) a))
                Hd) as (tax & _ & Ht).
    { rewrite getDiscountPercent_amount. apply Div_nonzero. exact Htwd. }
    apply (appendTotal_returns_when env d _ pdf Ht).
    intros ac disc Hdisc. rewrite Hd in Hdisc. injection Hdisc as <-.
    apply discountDescription_amount. exact Hsum.
  - apply (appendTotal_returns_when env d _ pdf (computeTotals_no_discount d Hd)).
    intros ac disc Hdisc. rewrite Hd in Hdisc. discriminate Hdisc.
Qed.

(** And it panics with a division by zero otherwise. *)
Lemma appendTotal_panics (env : Env) (d : Document.Document) (pdf : Fpdf) :
  totalsDrawable d = false ->
  appendTotal env d pdf = Panic "decimal division by 0".
Proof.
  unfold totalsDrawable. intros Hdraw.
  destruct (Document.Discount d) as [[p | a] |] eqn:Hd; try discriminate Hdraw.
  destruct (IsZero (Sub (sumItemTotals (Document.Items d)) a)) eqn:Htwd.
  - apply appendTotal_panic.
    apply (computeTotals_panic d (DiscountAmount a)); [exact Hd |].
    rewrite getDiscountPercent_amount. apply Div_zero. exact Htwd.
  - cbn [negb andb] in Hdraw. apply negb_false_iff in Hdraw.
    destruct (computeTotals_discount d (DiscountAmount a)
                (quotient (Mul a Hundred) (Sub (sumItemTotals (Document.Items d)) a))
                Hd) as (tax & _ & Ht).
    { rewrite getDiscountPercent_amount. apply Div_nonzero. exact Htwd. }
    destruct pdf as [x y page lM tM rM size ops].
    unfold appendTotal, appendTotalWith. cbv zeta. unfold bind at 1. unfold lift at 1.
    rewrite Ht, Hd. cbv beta iota. cbn [total totalWithDiscount].
    rewrite discountDescription_zero_total by exact Hdraw.
    run. reflexivity.
Qed.

(** C1, as stated, fails: with an amount discount that brings the total
    after discount to zero, on a zero-priced item list as on a fully
    discounted one, the effective percentage is not zero; the division
    panics and so do the totals and [appendTotal].  On a zero-priced list
    with any other amount discount the percentage is not zero either, and
    [appendTotal] panics on the division by the total. *)
Lemma C1_zero_denominator_panics :
  let free := Sample.document [Sample.freebie] (Some (DiscountAmount Zero)) "" "" in
  let full := Sample.document [Sample.plain] (Some (DiscountAmount (New 50 0))) "" "" in
  let gift := Sample.document [Sample.freebie] (Some (DiscountAmount (New 50 0))) "" "" in
  (IsZero (discountedTotal (DiscountAmount Zero)
                           (sumItemTotals (Document.Items free))) = true
   /\ computeTotals free = Panic "decimal division by 0"
   /\ appendTotal Sample.env free Sample.surface = Panic "decimal division by 0")
  /\ (IsZero (discountedTotal (DiscountAmount (New 50 0))
                              (sumItemTotals (Document.Items full))) = true
      /\ computeTotals full = Panic "decimal division by 0"
      /\ appendTotal Sample.env full Sample.surface = Panic "decimal division by 0")
  /\ ((exists t, computeTotals gift = Ok t
                 /\ discountPercent t = Some (New (-1000000000000000000) (-16)))
      /\ appendTotal Sample.env gift Sample.surface = Panic "decimal division by 0")
  /\ ~ (exists t, computeTotals free = Ok t /\ discountPercent t = Some Zero).
Proof.
  cbv zeta. repeat split; try reflexivity.
  - eexists. split; reflexivity.
  - intros (t & Ht & _). discriminate Ht.
Qed.

(** C1, amended: the divisions of [appendTotal] are not guarded.  Under
    an amount discount [a] the totals panic with a division by zero when
    [total - a] is zero, and otherwise the effective percentage is
    [a * 100 / (total - a)]; [appendTotal] as a whole panics when
    [total - a] or [total] is zero, and returns otherwise.  Under a
    percent discount the totals are always computed, the percentage is
    the discount's own, and [appendTotal] returns. *)
Theorem C1_discount_percent_unguarded (env : Env) (d : Document.Document)
    (disc : Discount) (pdf : Fpdf) :
  Document.Discount d = Some disc ->
  match disc with
  | DiscountAmount a =>
      let sum := sumItemTotals (Document.Items d) in
      let twd := Sub sum a in
      (if IsZero twd
       then computeTotals d = Panic "decimal division by 0"
       else exists t, computeTotals d = Ok t
                      /\ totalWithDiscount t = twd
                      /\ discountPercent t = Some (quotient (Mul a Hundred) twd))
      /\ (if IsZero twd || IsZero sum
          then appendTotal env d pdf = Panic "decimal division by 0"
          else exists pdf', appendTotal env d pdf = Ok (tt, pdf'))
  | DiscountPercent p =>
      (exists t, computeTotals d = Ok t /\ discountPercent t = Some p)
      /\ exists pdf', appendTotal env d pdf = Ok (tt, pdf')
  end.
Proof.
  intros Hd. destruct disc as [p | a].
  - split.
    + destruct (computeTotals_discount d (DiscountPercent p) p Hd eq_refl)
        as (tax & _ & Ht).
      eexists. split; [exact Ht | reflexivity].
    + apply appendTotal_returns. unfold totalsDrawable. now rewrite Hd.
  - cbv zeta. split.
    + destruct (IsZero (Sub (sumItemTotals (Document.Items d)) a)) eqn:Hz.
      * apply (computeTotals_panic d (DiscountAmount a)); [exact Hd |].
        rewrite getDiscountPercent_amount. apply Div_zero. exact Hz.
      * destruct (computeTotals_discount d (DiscountAmount a)
                    (quotient (Mul a Hundred)
                              (Sub (sumItemTotals (Document.Items d)) a))
                    Hd) as (tax & _ & Ht).
        { rewrite getDiscountPercent_amount. apply Div_nonzero. exact Hz. }
        eexists. split; [exact Ht | split; reflexivity].
    + destruct (IsZero (Sub (sumItemTotals (Document.Items d)) a)
                || IsZero (sumItemTotals (Document.Items d))) eqn:Hz.
      * apply appendTotal_panics. unfold totalsDrawable. rewrite Hd.
        rewrite <- negb_orb, Hz. reflexivity.
      * apply appendTotal_returns. unfold totalsDrawable. rewrite Hd.
        rewrite <- negb_orb, Hz. reflexivity.
Qed.

Lemma C1_discount_percent_unguarded_witness :
  (exists t,
      computeTotals
        (Sample.document [Sample.widget] (Some (DiscountAmount (New 50 0))) "" "")
      = Ok t
      /\ totalWithDiscount t = New 150 0
      /\ discountPercent t = Some (New 333333333333333333 (-16)))
  /\ exists pdf',
       appendTotal Sample.env
         (Sample.document [Sample.widget] (Some (DiscountAmount (New 50 0))) "" "")
         Sample.surface
       = Ok (tt, pdf').
Proof.
  exact (C1_discount_percent_unguarded Sample.env
           (Sample.document [Sample.widget] (Some (DiscountAmount (New 50 0))) "" "")
           (DiscountAmount (New 50 0)) Sample.surface eq_refl).
Defined.

(** The check before the totals block compares the cursor plus the
    height of the block with the maximum page height. *)
Lemma checkPageHeight_run (env : Env) (d : Document.Document) (pdf : Fpdf) :
  checkPageHeight env d pdf
  = if Qgtb (gofpdf.y pdf + totalsBlockHeight d) (MaxPageHeight env)
    then gofpdf.AddPage pdf
    else Ok (tt, pdf).
Proof.
  unfold checkPageHeight, bind, gofpdf.GetY, totalsBlockHeight, Qgtb.
  cbv beta iota zeta.
  assert (Hoff :
    Qle_bool match Document.Discount d with
             | Some _ => (gofpdf.y pdf + 30 + 15)%Q
             | None => (gofpdf.y pdf + 30)%Q
             end (MaxPageHeight env)
    = Qle_bool (gofpdf.y pdf + match Document.Discount d with
                               | Some _ => (30 + 15)%Q
                               | None => 30%Q
                               end) (MaxPageHeight env)).
  { apply Qleb_comp; [| reflexivity]. destruct (Document.Discount d); ring. }
  rewrite Hoff. clear Hoff.
  destruct (Qle_bool _ (MaxPageHeight env)); reflexivity.
Qed.

(** A cell that ends above the page-break trigger is placed at the
    cursor. *)
Lemma CellFormatAuto_fits (w h : Q) (txt border : string) (ln : Z)
    (align : string) (fill : bool) (link : Z) (linkStr : string) (pdf : Fpdf) :
  (gofpdf.y pdf + h <= gofpdf.PageBreakTrigger)%Q ->
  gofpdf.CellFormatAuto w h txt border ln align fill link linkStr pdf
  = gofpdf.CellFormat w h txt border ln align fill link linkStr pdf.
Proof.
  intros H. unfold gofpdf.CellFormatAuto, Qgtb.
  apply Qle_bool_iff in H. now rewrite H.
Qed.

(** The totals block reaches 10 below the ordinate at which its cursor
    ends: when that is above the page-break trigger every cell of the
    block is placed at the cursor, and the surface breaks no page. *)
Lemma appendTotalAuto_fits (env : Env) (d : Document.Document) (pdf : Fpdf) :
  (gofpdf.y pdf + totalsBlockHeight d + 10 <= gofpdf.PageBreakTrigger)%Q ->
  appendTotalAuto env d pdf = appendTotal env d pdf.
Proof.
  intros H. destruct pdf as [x y page lM tM rM size ops].
  unfold totalsBlockHeight in H. cbn [gofpdf.y] in H.
  unfold appendTotalAuto, appendTotal, appendTotalWith. cbv zeta.
  destruct (computeTotals d) as [t | msg]; [| reflexivity].
  destruct (Document.Discount d) as [disc |].
  - run.
    match goal with
    | |- context [discountDescription env ?ac disc ?a ?b] =>
        destruct (discountDescription env ac disc a b) as [desc | msg]
    end;
      repeat (run; rewrite CellFormatAuto_fits by (cbn [gofpdf.y]; lra));
      run; reflexivity.
  - repeat (run; rewrite CellFormatAuto_fits by (cbn [gofpdf.y]; lra));
      run; reflexivity.
Qed.

(** C7: before the notes and the totals, [Build] adds a page exactly when
    the cursor plus the height of the totals block, 30 and 15 more under
    a document discount, exceeds the maximum page height; the notes leave
    the cursor where it was; and the totals are then drawn whole on one
    page, the surface breaking no page inside the block, the cursor moving
    down by that height.  The block reaches 10 below the height the check
    counts, so this takes a maximum page height at least 10 under the
    page-break trigger of the surface, and a top margin under which the
    block fits on a fresh page. *)
Theorem C7_totals_block_on_one_page (env : Env) (d : Document.Document)
    (pdf : Fpdf) :
  (MaxPageHeight env + 10 <= gofpdf.PageBreakTrigger)%Q ->
  (gofpdf.tMargin pdf + totalsBlockHeight d + 10 <= gofpdf.PageBreakTrigger)%Q ->
  exists pdf1 pdf2,
    checkPageHeight env d pdf = Ok (tt, pdf1)
    /\ (if Qgtb (gofpdf.y pdf + totalsBlockHeight d) (MaxPageHeight env)
        then gofpdf.page pdf1 = S (gofpdf.page pdf)
             /\ gofpdf.y pdf1 = gofpdf.tMargin pdf
             /\ gofpdf.ops pdf1 = gofpdf.ops pdf ++ [gofpdf.OpAddPage]
        else pdf1 = pdf)
    /\ appendNotes env d pdf1 = Ok (tt, pdf2)
    /\ gofpdf.y pdf2 = gofpdf.y pdf1
    /\ (gofpdf.y pdf2 + totalsBlockHeight d + 10 <= gofpdf.PageBreakTrigger)%Q
    /\ (totalsDrawable d = true ->
        exists pdf3, appendTotalAuto env d pdf2 = Ok (tt, pdf3))
    /\ (forall pdf3,
          appendTotalAuto env d pdf2 = Ok (tt, pdf3) ->
          exists l,
            gofpdf.ops pdf3 = gofpdf.ops pdf2 ++ l
            /\ forallb (onPage (gofpdf.page pdf2)) l = true
            /\ countAddPage l = 0%nat
            /\ gofpdf.page pdf3 = gofpdf.page pdf2
            /\ (gofpdf.y pdf3 == gofpdf.y pdf1 + totalsBlockHeight d)%Q).
Proof.
  intros Hmax Htop.
  assert (Hcheck :
    exists pdf1,
      checkPageHeight env d pdf = Ok (tt, pdf1)
      /\ (if Qgtb (gofpdf.y pdf + totalsBlockHeight d) (MaxPageHeight env)
          then gofpdf.page pdf1 = S (gofpdf.page pdf)
               /\ gofpdf.y pdf1 = gofpdf.tMargin pdf
               /\ gofpdf.ops pdf1 = gofpdf.ops pdf ++ [gofpdf.OpAddPage]
          else pdf1 = pdf)
      /\ (gofpdf.y pdf1 + totalsBlockHeight d + 10 <= gofpdf.PageBreakTrigger)%Q).
  { rewrite checkPageHeight_run. unfold Qgtb.
    destruct (Qle_bool (gofpdf.y pdf + totalsBlockHeight d) (MaxPageHeight env))
      eqn:Hle; cbn [negb].
    - exists pdf. split; [reflexivity |]. split; [reflexivity |].
      apply Qle_bool_iff in Hle. lra.
    - eexists. split; [reflexivity |]. split; [repeat split |].
      exact Htop. }
  destruct Hcheck as (pdf1 & Hrun1 & Hpage & Hfit).
  destruct (appendNotes_run env d pdf1) as (pdf2 & Hrun2 & Hy).
  exists pdf1, pdf2.
  split; [exact Hrun1 |]. split; [exact Hpage |]. split; [exact Hrun2 |].
  split; [exact Hy |]. rewrite <- Hy in Hfit. split; [exact Hfit |].
  rewrite (appendTotalAuto_fits env d pdf2 Hfit). split.
  - intros Hdraw. apply appendTotal_returns. exact Hdraw.
  - intros pdf3 Hrun3.
    destruct (appendTotal_run env d pdf2 pdf3 Hrun3)
      as (l & Hops & Hon & _ & Hpg & Hy3).
    exists l. rewrite <- Hy.
    split; [exact Hops |]. split; [exact Hon |].
    split; [| split; assumption].
    apply (forallb_onPage_countAddPage (gofpdf.page pdf2)). exact Hon.
Qed.

Lemma C7_totals_block_on_one_page_witness :
  let d := Sample.document [Sample.widget] (Some (DiscountPercent (New 10 0))) "" "" in
  exists pdf1 pdf2,
    checkPageHeight Sample.env d (gofpdf.mk 10 230 1 10 20 10 8 []) = Ok (tt, pdf1)
    /\ gofpdf.page pdf1 = 2%nat
    /\ appendNotes Sample.env d pdf1 = Ok (tt, pdf2)
    /\ (gofpdf.y pdf2 + totalsBlockHeight d + 10 <= gofpdf.PageBreakTrigger)%Q
    /\ exists pdf3, appendTotalAuto Sample.env d pdf2 = Ok (tt, pdf3).
Proof.
  intros d.
  destruct (C7_totals_block_on_one_page Sample.env d
              (gofpdf.mk 10 230 1 10 20 10 8 []))
    as (pdf1 & pdf2 & Hrun1 & Hpage & Hrun2 & _ & Hfit & Hret & _).
  - vm_compute. discriminate.
  - vm_compute. discriminate.
  - exists pdf1, pdf2. split; [exact Hrun1 |].
    split; [exact (proj1 Hpage) |]. split; [exact Hrun2 |].
    split; [exact Hfit |]. apply Hret. reflexivity.
Defined.

(** Without the check the surface does split the block: from ordinate 245
    on the sample surface the first two rows are drawn on the page the
    cursor is on, the background of the label of the last row too, and the
    rest of the last row on a new page. *)
Example appendTotalAuto_splits :
  let d := Sample.document [Sample.widget] None "" "" in
  exists pdf3,
    appendTotalAuto Sample.env d (gofpdf.mk 10 245 1 10 20 10 8 []) = Ok (tt, pdf3)
    /\ gofpdf.page pdf3 = 2%nat
    /\ countAddPage (gofpdf.ops pdf3) = 1%nat
    /\ ordinates (gofpdf.ops pdf3)
       = [255; 255; 255; 255; 265; 265; 265; 265; 275; 20; 20; 20]%Q.
Proof.
  eexists. split; [vm_compute; reflexivity |]. repeat split.
Qed.


(** With notes on the sample surface, the cursor stays at ordinate 100
    although the markup writer moved it. *)
Example appendNotes_sample :
  exists pdf',
    appendNotes Sample.env (Sample.document [Sample.widget] None "" "thanks")
                Sample.surface = Ok (tt, pdf')
    /\ gofpdf.y pdf' = 100%Q
    /\ gofpdf.rMargin pdf' = 10%Q.
Proof.
  eexists. split; [vm_compute; reflexivity |]. split; reflexivity.
Qed.

(** ** [Build] *)

(** A dated document does not read the clock. *)
Lemma appendMetas_dated (env : Env) (now now' : string) (d : Document.Document) :
  Document.Date d <> ""%string ->
  appendMetas env now d = appendMetas env now' d.
Proof.
  intros Hdate. unfold appendMetas.
  destruct (Document.Date d) as [| c date]; [contradiction |].
  reflexivity.
Qed.

(** An undated document is stamped with the reading of the clock. *)
Lemma appendMetas_undated (env : Env) (now : string) (d : Document.Document)
    (pdf : Fpdf) :
  Document.Date d = ""%string ->
  exists pdf',
    appendMetas env now d pdf = Ok (tt, pdf')
    /\ last (cellTexts (gofpdf.ops pdf')) ""%string
       = encodeString env
           (sprintfPair (encodeString env (TextDateTitle (Document.Options d))) now).
Proof.
  intros Hdate. destruct pdf as [x y page lM tM rM size ops].
  unfold appendMetas. rewrite Hdate.
  destruct (0 <? String.length (Document.Version d))%nat;
    cbn [String.length Nat.ltb Nat.leb]; run;
    eexists; (split; [reflexivity |]);
    unfold cellTexts; rewrite flat_map_app; cbn [flat_map app];
    apply last_last.
Qed.

(** C8, as stated, fails: the same undated document built at two readings
    of the clock gives two different outputs. *)
Lemma C8_undated_document_depends_on_clock :
  let d := Sample.document [Sample.widget] None "" "" in
  Document.Date d = ""%string
  /\ Build Sample.env "30/10/2026" d <> Build Sample.env "31/10/2026" d.
Proof.
  cbv zeta. split; [reflexivity |].
  intros H. apply (f_equal builtTexts) in H. vm_compute in H. discriminate H.
Qed.

(** C8, amended: for a document that carries its date, [Build] is a
    function of the document alone: the reading of the clock does not
    show in the result. *)
Theorem C8_dated_document_ignores_clock (env : Env) (now now' : string)
    (d : Document.Document) :
  Document.Date d <> ""%string ->
  Build env now d = Build env now' d.
Proof.
  intros Hdate. unfold Build, buildPages.
  rewrite (appendMetas_dated env now now' d Hdate). reflexivity.
Qed.

Lemma C8_dated_document_ignores_clock_witness :
  Build Sample.env "30/10/2026"
        (Sample.document [Sample.widget] None "01/02/2026" "")
  = Build Sample.env "31/10/2026"
          (Sample.document [Sample.widget] None "01/02/2026" "").
Proof.
  apply (C8_dated_document_ignores_clock Sample.env "30/10/2026" "31/10/2026"
           (Sample.document [Sample.widget] None "01/02/2026" "")).
  discriminate.
Defined.

(** C9: when validation fails, [Build] returns that error and no surface,
    whatever the header and the footer would do, and the document is left
    as it was. *)
Theorem C9_validation_error_first (env : Env) (now : string)
    (d : Document.Document) (err : error) :
  Validate env d = Some err ->
  Build env now d = Ok (d, (None, Some err)).
Proof.
  intros Hv. unfold Build. rewrite Hv. reflexivity.
Qed.

Lemma C9_validation_error_first_witness :
  Build Sample.env "31/10/2026" (Sample.document [] None "" "")
  = Ok (Sample.document [] None "" "",
        (None, Some "Items is a required field"%string)).
Proof.
  apply (C9_validation_error_first Sample.env "31/10/2026"
           (Sample.document [] None "" "")).
  reflexivity.
Defined.

(** * Further properties *)

(** ** The items after [appendItems] *)

Lemma checkItemTax_fields (d : Document.Document) (item : Item.Item) :
  Item.Quantity (checkItemTax d item) = Item.Quantity item
  /\ Item.UnitPrice (checkItemTax d item) = Item.UnitPrice item
  /\ Item.Discount (checkItemTax d item) = Item.Discount item
  /\ Item.Tax (checkItemTax d item) = checkedTax d item.
Proof.
  unfold checkItemTax, checkedTax.
  destruct (Item.Tax item) as [t |] eqn:Ht; cbn; rewrite ?Ht; repeat split.
Qed.

(** Checking the tax twice is checking it once, also against the
    document that the first check produced. *)
Lemma checkItemTax_idempotent (d : Document.Document) (item : Item.Item) :
  checkItemTax (withCheckedTaxes d) (checkItemTax d item) = checkItemTax d item.
Proof.
  destruct (Item.Tax item) as [t |] eqn:Ht.
  - assert (H : checkItemTax d item = item)
      by (unfold checkItemTax; now rewrite Ht).
    rewrite H. unfold checkItemTax. now rewrite Ht.
  - assert (H : checkItemTax d item = Item.setTax item (Document.DefaultTax d))
      by (unfold checkItemTax; now rewrite Ht).
    rewrite H. unfold checkItemTax. cbn [Item.Tax Item.setTax].
    change (Document.DefaultTax (withCheckedTaxes d)) with (Document.DefaultTax d).
    destruct (Document.DefaultTax d) as [t |]; reflexivity.
Qed.

Lemma withCheckedTaxes_idempotent (d : Document.Document) :
  withCheckedTaxes (withCheckedTaxes d) = withCheckedTaxes d.
Proof.
  unfold withCheckedTaxes at 1 3. unfold Document.setItems at 1.
  assert (H : map (checkItemTax (withCheckedTaxes d))
                  (Document.Items (withCheckedTaxes d))
              = map (checkItemTax d) (Document.Items d)).
  { unfold withCheckedTaxes at 2. cbn [Document.Items Document.setItems].
    rewrite map_map. apply map_ext. intros item.
    apply checkItemTax_idempotent. }
  rewrite H. reflexivity.
Qed.

(** [appendItems] always returns, and changes nothing in the document but
    the tax of the items that had none: as many items, in the same order,
    each with its quantity, unit price and discount, and with its own tax
    or else the default tax of the document.  Run again on the document
    it returned, it returns that document unchanged. *)
Theorem appendItems_defaults_tax_only (env : Env) (d : Document.Document)
    (pdf : Fpdf) :
  exists pdf',
    appendItems env d pdf = Ok (withCheckedTaxes d, pdf')
    /\ List.length (Document.Items (withCheckedTaxes d))
       = List.length (Document.Items d)
    /\ (forall n item,
          nth_error (Document.Items d) n = Some item ->
          exists item',
            nth_error (Document.Items (withCheckedTaxes d)) n = Some item'
            /\ Item.Quantity item' = Item.Quantity item
            /\ Item.UnitPrice item' = Item.UnitPrice item
            /\ Item.Discount item' = Item.Discount item
            /\ Item.Tax item' = checkedTax d item)
    /\ Document.Discount (withCheckedTaxes d) = Document.Discount d
    /\ Document.DefaultTax (withCheckedTaxes d) = Document.DefaultTax d
    /\ Document.Notes (withCheckedTaxes d) = Document.Notes d
    /\ (forall pdf2,
          exists pdf2',
            appendItems env (withCheckedTaxes d) pdf2 = Ok (withCheckedTaxes d, pdf2')).
Proof.
  destruct (appendItems_items env d pdf) as (pdf' & Hrun).
  exists pdf'. split; [exact Hrun |]. split.
  { unfold withCheckedTaxes. cbn [Document.Items Document.setItems].
    apply length_map. }
  split.
  { intros n item Hn. exists (checkItemTax d item). split.
    - unfold withCheckedTaxes. cbn [Document.Items Document.setItems].
      rewrite nth_error_map, Hn. reflexivity.
    - apply checkItemTax_fields. }
  split; [reflexivity |]. split; [reflexivity |]. split; [reflexivity |].
  intros pdf2.
  destruct (appendItems_items env (withCheckedTaxes d) pdf2) as (pdf2' & Hrun2).
  exists pdf2'. rewrite Hrun2.
  fold (withCheckedTaxes (withCheckedTaxes d)).
  now rewrite withCheckedTaxes_idempotent.
Qed.

(** ** The rows of the item table *)

(** The loop of [appendItems] in full: what it returns, what it draws,
    and where it leaves the surface. *)
Lemma appendItemsFrom_full (env : Env) (d : Document.Document)
    (items : list Item.Item) :
  forall pdf,
  exists pdf',
    appendItemsFrom env d items pdf = Ok (map (checkItemTax d) items, pdf')
    /\ gofpdf.ops pdf'
       = gofpdf.ops pdf
         ++ rowsTrace env d (gofpdf.lMargin pdf) (gofpdf.tMargin pdf)
              (gofpdf.page pdf) (gofpdf.x pdf) (gofpdf.y pdf) items
    /\ gofpdf.page pdf'
       = (gofpdf.page pdf
          + crossings env d (gofpdf.tMargin pdf) (gofpdf.y pdf) items)%nat
    /\ gofpdf.y pdf'
       = fold_left (nextRowY env d (gofpdf.tMargin pdf)) items (gofpdf.y pdf)
    /\ gofpdf.lMargin pdf' = gofpdf.lMargin pdf
    /\ gofpdf.tMargin pdf' = gofpdf.tMargin pdf
    /\ gofpdf.rMargin pdf' = gofpdf.rMargin pdf.
Proof.
  induction items as [| item rest IH]; intros pdf.
  - exists pdf. cbn. rewrite app_nil_r, Nat.add_0_r. repeat split.
  - cbn [appendItemsFrom map rowsTrace crossings fold_left].
    unfold bind at 1. rewrite appendItem_run. unfold bind at 1.
    match goal with
    | |- context [appendItemsFrom env d rest ?p] =>
        destruct (IH p) as (pdf' & Hrun & Hops & Hpage & Hy & HlM & HtM & HrM)
    end.
    exists pdf'. rewrite Hrun.
    cbn [gofpdf.x gofpdf.y gofpdf.page gofpdf.lMargin gofpdf.tMargin
         gofpdf.rMargin gofpdf.ops] in Hops, Hpage, Hy, HlM, HtM, HrM.
    split; [reflexivity |].
    split; [| split; [| split; [exact Hy | repeat split; assumption]]].
    + rewrite Hops. rewrite <- app_assoc. f_equal. cbn [app]. f_equal.
      destruct (crosses env d (gofpdf.y pdf) item).
      * cbn [app]. rewrite <- app_assoc. reflexivity.
      * reflexivity.
    + rewrite Hpage. destruct (crosses env d (gofpdf.y pdf) item); lia.
Qed.

Lemma rowOrdinates_app (l l' : list gofpdf.Op) :
  rowOrdinates (l ++ l') = rowOrdinates l ++ rowOrdinates l'.
Proof. apply flat_map_app. Qed.

(** The rows of the trace start where [rowStarts] says. *)
Lemma rowOrdinates_rowsTrace (env : Env) (d : Document.Document) (left top : Q)
    (items : list Item.Item) :
  forall page x y,
    rowOrdinates (rowsTrace env d left top page x y items)
    = rowStarts env d top y items.
Proof.
  induction items as [| item rest IH]; intros page x y; [reflexivity |].
  cbn [rowsTrace rowStarts].
  change (rowOrdinates (gofpdf.OpItemRow ?pg ?a ?b ?i ?o :: ?l))
    with (b :: rowOrdinates l).
  f_equal. destruct (crosses env d y item).
  - change (rowOrdinates (gofpdf.OpAddPage :: ?l)) with (rowOrdinates l).
    rewrite rowOrdinates_app.
    change (rowOrdinates (titleOps env d (S page) top)) with (@nil Q).
    cbn [app].
    change (rowOrdinates (gofpdf.OpSetFont ?f ?st ?sz :: ?l))
      with (rowOrdinates l).
    apply IH.
  - apply IH.
Qed.

(** After any row the next one starts within the page, or at the top of
    a new page. *)
Lemma nextRowY_within (env : Env) (d : Document.Document) (top y : Q)
    (item : Item.Item) :
  startsWithinPage env top (nextRowY env d top y item).
Proof.
  unfold startsWithinPage, nextRowY, crosses, Qgtb.
  destruct (Qle_bool _ (MaxPageHeight env)) eqn:Hle; cbn [negb].
  - left. apply Qle_bool_imp_le in Hle.
    apply Qplus_le_compat; [exact Hle | apply Qle_refl].
  - right. reflexivity.
Qed.

Lemma rowStarts_within (env : Env) (d : Document.Document) (top : Q)
    (items : list Item.Item) :
  forall y,
    startsWithinPage env top y ->
    Forall (startsWithinPage env top) (rowStarts env d top y items).
Proof.
  induction items as [| item rest IH]; intros y Hy; cbn [rowStarts].
  - constructor.
  - constructor; [exact Hy |]. apply IH. apply nextRowY_within.
Qed.

Lemma lastRow_within (env : Env) (d : Document.Document) (top : Q)
    (items : list Item.Item) :
  forall y,
    startsWithinPage env top y ->
    startsWithinPage env top (fold_left (nextRowY env d top) items y).
Proof.
  induction items as [| item rest IH]; intros y Hy; cbn [fold_left].
  - exact Hy.
  - apply IH. apply nextRowY_within.
Qed.

(** The rows of the item loop: as many rows as items; the first starts
    at the cursor, every later one at most 6 below the maximum page
    height or, after a page break, 11 below the top margin; and when
    there was an item the loop leaves the cursor at such an ordinate. *)
Theorem appendItemsFrom_rows_start_within_page (env : Env)
    (d : Document.Document) (items : list Item.Item) (pdf : Fpdf) :
  exists pdf' trace,
    appendItemsFrom env d items pdf = Ok (map (checkItemTax d) items, pdf')
    /\ gofpdf.ops pdf' = gofpdf.ops pdf ++ trace
    /\ List.length (rowOrdinates trace) = List.length items
    /\ hd_error (rowOrdinates trace)
       = match items with
         | [] => None
         | _ :: _ => Some (gofpdf.y pdf)
         end
    /\ Forall (startsWithinPage env (gofpdf.tMargin pdf))
              (tl (rowOrdinates trace))
    /\ (items <> [] -> startsWithinPage env (gofpdf.tMargin pdf) (gofpdf.y pdf')).
Proof.
  destruct (appendItemsFrom_full env d items pdf)
    as (pdf' & Hrun & Hops & _ & Hy & _).
  exists pdf'. eexists. split; [exact Hrun |]. split; [exact Hops |].
  rewrite rowOrdinates_rowsTrace.
  destruct items as [| item rest].
  - cbn. repeat split; [constructor | congruence].
  - cbn [rowStarts hd_error tl List.length]. split.
    { f_equal. clear. generalize (nextRowY env d (gofpdf.tMargin pdf)
                                    (gofpdf.y pdf) item).
      induction rest as [| i r IH]; intros y; [reflexivity |].
      cbn [rowStarts List.length]. f_equal. apply IH. }
    split; [reflexivity |]. split.
    + apply rowStarts_within. apply nextRowY_within.
    + intros _. rewrite Hy. cbn [fold_left].
      apply lastRow_within. apply nextRowY_within.
Qed.

(** ** The totals under a document discount *)

(** How two rounding errors compose. *)
Lemma Qabs_error_chain (e1 e2 k eps : Q) :
  (Qabs e1 <= eps)%Q -> (Qabs e2 <= eps)%Q ->
  (Qabs (e2 - k * e1) <= (Qabs k + 1) * eps)%Q.
Proof.
  intros H1 H2.
  setoid_replace (e2 - k * e1)%Q with (e2 + (- k) * e1)%Q by ring.
  eapply Qle_trans; [apply Qabs_triangle |].
  rewrite Qabs_Qmult, Qabs_opp.
  setoid_replace ((Qabs k + 1) * eps)%Q with (eps + Qabs k * eps)%Q by ring.
  apply Qplus_le_compat; [exact H2 |].
  rewrite (Qmult_comm (Qabs k) (Qabs e1)), (Qmult_comm (Qabs k) eps).
  apply Qmult_le_compat_r; [exact H1 | apply Qabs_nonneg].
Qed.

(** The tax that one item adds is its exact tax up to the rounding of the
    two divisions. *)
Lemma taxContribution_error (dp : Decimal) (item : Item.Item) :
  (Qabs (toQ (taxContribution dp item) - exactContribution (toQ dp) item)
   <= contributionSlack item)%Q.
Proof.
  unfold taxContribution, exactContribution, contributionSlack, halfUlp.
  destruct (Item.Tax item) as [[p | a] |].
  - cbv zeta.
    set (IT := Item.totalWithoutTaxAndWithDiscount item).
    set (z := quotient (Mul dp IT) Hundred).
    set (c := quotient (Mul p (Sub IT z)) Hundred).
    pose proof (quotient_rounding (Mul dp IT) Hundred eq_refl) as H1.
    pose proof (quotient_rounding (Mul p (Sub IT z)) Hundred eq_refl) as H2.
    fold z in H1. fold c in H2.
    rewrite toQ_Mul, toQ_Hundred in H1.
    rewrite toQ_Mul, toQ_Sub, toQ_Hundred in H2.
    setoid_replace
      (toQ c - toQ p * (toQ IT - toQ dp * toQ IT / 100) / 100)%Q
      with ((toQ c - toQ p * (toQ IT - toQ z) / 100)
            - (toQ p / 100) * (toQ z - toQ dp * toQ IT / 100))%Q by field.
    apply Qabs_error_chain; assumption.
  - setoid_replace (toQ a - toQ a)%Q with 0%Q by ring. discriminate.
  - discriminate.
Qed.

Lemma Qsum_error (f g slack : Item.Item -> Q) (items : list Item.Item) :
  (forall item, (Qabs (f item - g item) <= slack item)%Q) ->
  (Qabs (Qsum (map f items) - Qsum (map g items)) <= Qsum (map slack items))%Q.
Proof.
  intros H. induction items as [| item rest IH]; cbn [map Qsum].
  - discriminate.
  - setoid_replace
      (f item + Qsum (map f rest) - (g item + Qsum (map g rest)))%Q
      with ((f item - g item) + (Qsum (map f rest) - Qsum (map g rest)))%Q
      by ring.
    eapply Qle_trans; [apply Qabs_triangle |].
    apply Qplus_le_compat; [apply H | exact IH].
Qed.

(** Under a document discount the tax total is the sum of the exact taxes
    of the items, up to half a unit of the sixteenth digit for each
    division made: the two divisions of every percent-taxed item. *)
Theorem totalTax_rounding (d : Document.Document) (disc : Discount)
    (dp : Decimal) :
  Document.Discount d = Some disc ->
  getDiscountPercent disc (discountedTotal disc (sumItemTotals (Document.Items d)))
  = Ok dp ->
  exists t,
    computeTotals d = Ok t
    /\ (Qabs (toQ (totalTax t)
              - Qsum (map (exactContribution (toQ dp)) (Document.Items d)))
        <= Qsum (map contributionSlack (Document.Items d)))%Q.
Proof.
  intros Hd Hdp.
  destruct (computeTotals_discount d disc dp Hd Hdp) as (tax & Htax & Ht).
  eexists. split; [exact Ht |]. cbn [totalTax].
  destruct (sumDiscountedTaxes_toQ dp (Document.Items d) Zero) as (r & Hr & Hsum).
  rewrite Htax in Hr. injection Hr as <-.
  setoid_replace (toQ tax)
    with (Qsum (map (fun i => toQ (taxContribution dp i)) (Document.Items d)))
    by (rewrite Hsum, toQ_Zero; ring).
  apply (Qsum_error (fun i => toQ (taxContribution dp i))).
  intros item. apply taxContribution_error.
Qed.

Lemma totalTax_rounding_witness :
  let d := Sample.document [Sample.widget; Sample.flatTaxed]
                           (Some (DiscountAmount (New 50 0))) "" "" in
  exists t,
    computeTotals d = Ok t
    /\ (Qabs (toQ (totalTax t)
              - Qsum (map (exactContribution (toQ (New 250000000000000000 (-16))))
                          (Document.Items d)))
        <= Qsum (map contributionSlack (Document.Items d)))%Q.
Proof.
  exact (totalTax_rounding
           (Sample.document [Sample.widget; Sample.flatTaxed]
                            (Some (DiscountAmount (New 50 0))) "" "")
           (DiscountAmount (New 50 0)) (New 250000000000000000 (-16))
           eq_refl eq_refl).
Defined.

(** On that sample the exact taxes are 30 and 5, and the slack is six
    fifths of half a unit of the sixteenth digit. *)
Example totalTax_rounding_sample :
  let d := Sample.document [Sample.widget; Sample.flatTaxed]
                           (Some (DiscountAmount (New 50 0))) "" "" in
  (Qsum (map (exactContribution (toQ (New 250000000000000000 (-16))))
             (Document.Items d)) == 35)%Q
  /\ (Qsum (map contributionSlack (Document.Items d)) == (6 # 5) * halfUlp)%Q.
Proof. split; vm_compute; reflexivity. Qed.

(** Under a document discount the grand total is the total after
    discount plus the tax total: the sum of the items' totals, less the
    discount, plus the tax. *)
Theorem grand_total_with_discount (d : Document.Document) (disc : Discount)
    (dp : Decimal) :
  Document.Discount d = Some disc ->
  getDiscountPercent disc (discountedTotal disc (sumItemTotals (Document.Items d)))
  = Ok dp ->
  let items := Qsum (map (fun item => toQ (Item.totalWithoutTaxAndWithDiscount item))
                         (Document.Items d)) in
  exists t,
    computeTotals d = Ok t
    /\ (toQ (total t) == items)%Q
    /\ (toQ (totalWithTax t) == toQ (totalWithDiscount t) + toQ (totalTax t))%Q
    /\ match disc with
       | DiscountAmount a =>
           (toQ (totalWithTax t) == items - toQ a + toQ (totalTax t))%Q
       | DiscountPercent p =>
           (toQ (totalWithTax t)
            == items - items * toQ (quotient p Hundred) + toQ (totalTax t))%Q
       end.
Proof.
  intros Hd Hdp items.
  destruct (computeTotals_discount d disc dp Hd Hdp) as (tax & _ & Ht).
  eexists. split; [exact Ht |].
  cbn [total totalWithTax totalWithDiscount totalTax].
  split; [apply sumItemTotals_toQ |]. split; [apply toQ_Add |].
  destruct disc as [p | a]; cbn [discountedTotal].
  - rewrite toQ_Add, toQ_Sub, toQ_Mul, sumItemTotals_toQ. reflexivity.
  - rewrite toQ_Add, toQ_Sub, sumItemTotals_toQ. reflexivity.
Qed.

Lemma grand_total_with_discount_witness :
  exists t,
    computeTotals
      (Sample.document [Sample.widget; Sample.flatTaxed]
                       (Some (DiscountPercent (New 10 0))) "" "")
    = Ok t
    /\ (toQ (total t) == 250)%Q
    /\ (toQ (totalWithTax t) == 266)%Q.
Proof.
  destruct (grand_total_with_discount
              (Sample.document [Sample.widget; Sample.flatTaxed]
                               (Some (DiscountPercent (New 10 0))) "" "")
              (DiscountPercent (New 10 0)) (New 10 0) eq_refl eq_refl)
    as (t & Ht & Htotal & _ & _).
  exists t. split; [exact Ht |]. split.
  - rewrite Htotal. vm_compute. reflexivity.
  - injection Ht as <-. vm_compute. reflexivity.
Defined.

(** ** What the totals block shows *)

(** When [appendTotal] returns it has drawn the labels and the amounts it
    computed, in order. *)
Lemma appendTotal_texts_effect (env : Env) (d : Document.Document) (pdf : Fpdf) :
  match appendTotal env d pdf with
  | Panic _ => True
  | Ok (_, pdf') =>
      exists t description l,
        computeTotals d = Ok t
        /\ (forall disc,
              Document.Discount d = Some disc ->
              discountDescription env (documentAccounting env d) disc
                (total t) (totalWithDiscount t) = Ok description)
        /\ gofpdf.ops pdf' = gofpdf.ops pdf ++ l
        /\ cellTexts l = totalsTexts env d t description
  end.
Proof.
  destruct pdf as [x y page lM tM rM size ops].
  unfold appendTotal, appendTotalWith, totalsTexts, documentAccounting. cbv zeta.
  unfold bind at 1. unfold lift at 1.
  destruct (computeTotals d) as [t | msg]; [| exact I].
  cbv beta iota.
  destruct (Document.Discount d) as [disc |].
  - match goal with
    | |- context [lift ?c] => destruct c as [desc | msg] eqn:Hdesc
    end.
    + run. exists t, desc. eexists. split; [reflexivity |]. split.
      { intros disc' Hdisc. injection Hdisc as <-. exact Hdesc. }
      split.
      { repeat rewrite <- app_assoc. cbn [app]. reflexivity. }
      reflexivity.
    + run. exact I.
  - run. exists t, ""%string. eexists. split; [reflexivity |]. split.
    { intros disc Hdisc. discriminate Hdisc. }
    split.
    { repeat rewrite <- app_assoc. cbn [app]. reflexivity. }
    reflexivity.
Qed.

(** When no division has a zero divisor, [appendTotal] returns and the
    texts it draws are, in order: the total label and the total; under a
    document discount the discounted label, the description of the
    discount and the total after discount; the tax label and the tax
    total; the grand total label and the grand total, each amount as the
    money formatter renders the value computed.  Without a document
    discount the total after discount is not drawn. *)
Theorem appendTotal_draws_the_totals (env : Env) (d : Document.Document)
    (pdf : Fpdf) :
  totalsDrawable d = true ->
  exists pdf' t description l,
    appendTotal env d pdf = Ok (tt, pdf')
    /\ computeTotals d = Ok t
    /\ (forall disc,
          Document.Discount d = Some disc ->
          discountDescription env (documentAccounting env d) disc
            (total t) (totalWithDiscount t) = Ok description)
    /\ gofpdf.ops pdf' = gofpdf.ops pdf ++ l
    /\ cellTexts l = totalsTexts env d t description
    /\ List.length (cellTexts l)
       = match Document.Discount d with
         | Some _ => 9%nat
         | None => 6%nat
         end.
Proof.
  intros Hdraw.
  destruct (appendTotal_returns env d pdf Hdraw) as (pdf' & Hrun).
  pose proof (appendTotal_texts_effect env d pdf) as E.
  rewrite Hrun in E. destruct E as (t & desc & l & Ht & Hdesc & Hops & Htexts).
  exists pdf', t, desc, l. repeat split; try assumption.
  rewrite Htexts. unfold totalsTexts.
  destruct (Document.Discount d); reflexivity.
Qed.

Lemma appendTotal_draws_the_totals_witness :
  exists pdf' t description l,
    appendTotal Sample.env (Sample.document [Sample.widget] None "" "")
                Sample.surface = Ok (tt, pdf')
    /\ computeTotals (Sample.document [Sample.widget] None "" "") = Ok t
    /\ gofpdf.ops pdf' = gofpdf.ops Sample.surface ++ l
    /\ cellTexts l
       = totalsTexts Sample.env (Sample.document [Sample.widget] None "" "")
                     t description
    /\ List.length (cellTexts l) = 6%nat.
Proof.
  destruct (appendTotal_draws_the_totals Sample.env
              (Sample.document [Sample.widget] None "" "") Sample.surface eq_refl)
    as (pdf' & t & desc & l & Hrun & Ht & _ & Hops & Htexts & Hlen).
  exists pdf', t, desc, l. repeat split; assumption.
Defined.

(** ** The title block *)

(** [appendMetas] always returns.  It draws the reference, the version
    only when the document has one, and the date, the document's own or
    else the reading of the clock; each on the current page at its fixed
    ordinate under the top margin constant, wherever the cursor was. *)
Theorem appendMetas_draws (env : Env) (now : string) (d : Document.Document)
    (pdf : Fpdf) :
  exists pdf' l,
    appendMetas env now d pdf = Ok (tt, pdf')
    /\ gofpdf.ops pdf' = gofpdf.ops pdf ++ l
    /\ cellTexts l = metasTexts env now d
    /\ ordinates l = metasOrdinates env d
    /\ forallb (onPage (gofpdf.page pdf)) l = true
    /\ gofpdf.page pdf' = gofpdf.page pdf
    /\ gofpdf.y pdf' = (BaseMarginTop env + 19)%Q.
Proof.
  destruct pdf as [x y page lM tM rM size ops].
  unfold appendMetas, metasTexts, metasOrdinates.
  destruct (Document.Version d) as [| cv version];
    destruct (Document.Date d) as [| cd date];
    cbn [String.length Nat.ltb Nat.leb]; run;
    eexists; eexists; (split; [reflexivity |]);
    cbn [gofpdf.ops gofpdf.page gofpdf.y];
    (split; [repeat rewrite <- app_assoc; cbn [app]; reflexivity |]);
    cbn [cellTexts ordinates flat_map app forallb onPage];
    rewrite Nat.eqb_refl; repeat split.
Qed.

(** ** The table titles *)

(** The table titles show the seven labels in column order, each
    encoded, and leave the margins as they are. *)
Theorem drawsTableTitles_labels (env : Env) (d : Document.Document)
    (pdf : Fpdf) :
  exists pdf' l,
    drawsTableTitles env d pdf = Ok (tt, pdf')
    /\ gofpdf.ops pdf' = gofpdf.ops pdf ++ l
    /\ cellTexts l
       = map (encodeString env)
           [TextItemsNameTitle (Document.Options d);
            TextItemsUnitCostTitle (Document.Options d);
            TextItemsQuantityTitle (Document.Options d);
            TextItemsTotalHTTitle (Document.Options d);
            TextItemsTaxTitle (Document.Options d);
            TextItemsDiscountTitle (Document.Options d);
            TextItemsTotalTTCTitle (Document.Options d)]
    /\ gofpdf.lMargin pdf' = gofpdf.lMargin pdf
    /\ gofpdf.tMargin pdf' = gofpdf.tMargin pdf
    /\ gofpdf.rMargin pdf' = gofpdf.rMargin pdf.
Proof.
  rewrite drawsTableTitles_run. eexists. eexists.
  split; [reflexivity |]. cbn [gofpdf.ops gofpdf.lMargin gofpdf.tMargin
                               gofpdf.rMargin].
  split; [reflexivity |].
  unfold titleOps. cbn [cellTexts flat_map app map]. repeat split.
Qed.

(** ** The notes *)

(** With notes, [appendNotes] hands the markup writer a surface on the
    same page with the cursor 10 below, a 9 point font and a right margin
    of 100, and a line height of 9 points in millimetres; what the writer
    returns gets the right margin [BaseMargin] and the ordinate the
    cursor had on entry, whatever the right margin was before. *)
Theorem appendNotes_margins (env : Env) (d : Document.Document) (pdf : Fpdf) :
  Document.Notes d <> ""%string ->
  exists pIn pOut pdf',
    appendNotes env d pdf = Ok (tt, pdf')
    /\ pOut = HTMLBasicWrite env (9 * (254 # 720))%Q
                (encodeString env (Document.Notes d)) pIn
    /\ gofpdf.y pIn = (gofpdf.y pdf + 10)%Q
    /\ gofpdf.x pIn = gofpdf.lMargin pdf
    /\ gofpdf.page pIn = gofpdf.page pdf
    /\ gofpdf.rMargin pIn = 100%Q
    /\ gofpdf.fontSizePt pIn = 9%Q
    /\ gofpdf.ops pIn
       = gofpdf.ops pdf
         ++ [gofpdf.OpSetFont "Helvetica" "" 9; gofpdf.OpSetRightMargin 100]
    /\ gofpdf.ops pdf'
       = gofpdf.ops pOut ++ [gofpdf.OpSetRightMargin (BaseMargin env)]
    /\ gofpdf.rMargin pdf' = BaseMargin env
    /\ gofpdf.y pdf' = gofpdf.y pdf
    /\ gofpdf.x pdf' = gofpdf.lMargin pOut
    /\ gofpdf.page pdf' = gofpdf.page pOut.
Proof.
  intros Hnotes. destruct pdf as [x y page lM tM rM size ops].
  unfold appendNotes.
  destruct (Document.Notes d) as [| c notes] eqn:Hn; [contradiction |].
  cbn [String.length Nat.eqb]. run.
  eexists. eexists. eexists. split; [reflexivity |].
  split; [reflexivity |]. cbn [gofpdf.x gofpdf.y gofpdf.page gofpdf.rMargin
                               gofpdf.fontSizePt gofpdf.ops gofpdf.lMargin].
  repeat split; try reflexivity.
  cbn [gofpdf.ops]. now rewrite <- app_assoc.
Qed.

Lemma appendNotes_margins_witness :
  exists pdf',
    appendNotes Sample.env (Sample.document [Sample.widget] None "" "thanks")
                (gofpdf.mk 10 100 1 10 20 33 8 [])
    = Ok (tt, pdf')
    /\ gofpdf.rMargin pdf' = 10%Q
    /\ gofpdf.y pdf' = 100%Q.
Proof.
  destruct (appendNotes_margins Sample.env
              (Sample.document [Sample.widget] None "" "thanks")
              (gofpdf.mk 10 100 1 10 20 33 8 []))
    as (pIn & pOut & pdf' & Hrun & _ & _ & _ & _ & _ & _ & _ & _ & HrM & Hy & _).
  - discriminate.
  - exists pdf'. repeat split; assumption.
Defined.

(** ** The payment term *)

(** [appendPaymentTerm] always returns.  Without a payment term it leaves
    the surface as it is.  With one it sets the bold font and draws a
    single cell with the label and the term, at abscissa 120: 15 below the
    cursor on the current page when the cell ends above the page-break
    trigger of the surface, and at the top margin of a new page
    otherwise; the cursor is left at the right end of that cell. *)
Theorem appendPaymentTermAuto_draws (env : Env) (d : Document.Document)
    (pdf : Fpdf) :
  exists pdf',
    appendPaymentTermAuto env d pdf = Ok (tt, pdf')
    /\ match Document.PaymentTerm d with
       | EmptyString => pdf' = pdf
       | _ =>
           let text :=
             sprintfPair
               (encodeString env (TextPaymentTermTitle (Document.Options d)))
               (encodeString env (Document.PaymentTerm d)) in
           gofpdf.x pdf' = (120 + 80)%Q
           /\ if Qgtb (gofpdf.y pdf + 15 + 4) gofpdf.PageBreakTrigger
              then
                gofpdf.ops pdf'
                = gofpdf.ops pdf
                  ++ [gofpdf.OpSetFont "Helvetica" "B" 10;
                      gofpdf.OpAddPage;
                      gofpdf.OpCellFormat (S (gofpdf.page pdf)) 120
                        (gofpdf.tMargin pdf) 80 4 text "0" 0 "R" false 0 ""]
                /\ gofpdf.page pdf' = S (gofpdf.page pdf)
                /\ gofpdf.y pdf' = gofpdf.tMargin pdf
              else
                gofpdf.ops pdf'
                = gofpdf.ops pdf
                  ++ [gofpdf.OpSetFont "Helvetica" "B" 10;
                      gofpdf.OpCellFormat (gofpdf.page pdf) 120
                        (gofpdf.y pdf + 15)%Q 80 4 text "0" 0 "R" false 0 ""]
                /\ gofpdf.page pdf' = gofpdf.page pdf
                /\ gofpdf.y pdf' = (gofpdf.y pdf + 15)%Q
       end.
Proof.
  destruct pdf as [x y page lM tM rM size ops].
  unfold appendPaymentTermAuto, appendPaymentTermWith.
  destruct (Document.PaymentTerm d) as [| c term];
    cbn [String.length Nat.ltb Nat.leb].
  - exists (gofpdf.mk x y page lM tM rM size ops). split; reflexivity.
  - run. unfold gofpdf.CellFormatAuto. cbn [gofpdf.y gofpdf.x].
    destruct (Qgtb (y + 15 + 4) gofpdf.PageBreakTrigger);
      run; eexists; (split; [reflexivity |]);
      cbn [gofpdf.ops gofpdf.page gofpdf.y gofpdf.x];
      rewrite <- !app_assoc; repeat split.
Qed.

(** On the sample surface a payment term is drawn 15 below a cursor at
    ordinate 257, and at the top margin of a new page below a cursor at
    ordinate 258, where the totals may end. *)
Example appendPaymentTermAuto_sample :
  let d :=
    Document.mk Sample.options None None "INVOICE" "R-1" "" "" "" "" "30 days"
      {| ContactLines := [] |} {| ContactLines := [] |} [Sample.widget]
      None None in
  (exists pdf',
      appendPaymentTermAuto Sample.env d (gofpdf.mk 10 257 1 10 20 10 8 [])
      = Ok (tt, pdf')
      /\ gofpdf.page pdf' = 1%nat /\ ordinates (gofpdf.ops pdf') = [272%Q])
  /\ (exists pdf',
         appendPaymentTermAuto Sample.env d (gofpdf.mk 10 258 1 10 20 10 8 [])
         = Ok (tt, pdf')
         /\ gofpdf.page pdf' = 2%nat /\ ordinates (gofpdf.ops pdf') = [20%Q]).
Proof.
  split; eexists; (split; [vm_compute; reflexivity |]); split; reflexivity.
Qed.

(** ** The outcomes of [Build] *)

Lemma returns_ret {S A : Type} (a : A) : returns (@ret S A a).
Proof. intros s. exists a, s. reflexivity. Qed.

Lemma returns_call {S : Type} (f : S -> S) : returns (call f).
Proof. intros s. exists tt, (f s). reflexivity. Qed.

Lemma returns_callr {S A : Type} (f : S -> A * S) : returns (callr f).
Proof.
  intros s. exists (fst (f s)), (snd (f s)). unfold callr.
  now destruct (f s).
Qed.

Lemma returns_bind {S A B : Type} (c : M S A) (k : A -> M S B) :
  returns c -> (forall a, returns (k a)) -> returns (bind c k).
Proof.
  intros Hc Hk s. destruct (Hc s) as (a & s' & Hrun).
  destruct (Hk a s') as (b & s'' & Hrun').
  exists b, s''. unfold bind. now rewrite Hrun.
Qed.

(** A step that returns hands its value and its state to what follows. *)
Lemma bind_returns {S A B : Type} (c : M S A) (k : A -> M S B) (s : S) :
  returns c -> exists a s', bind c k s = k a s'.
Proof.
  intros Hc. destruct (Hc s) as (a & s' & Hrun).
  exists a, s'. unfold bind. now rewrite Hrun.
Qed.

Lemma returns_GetY : returns gofpdf.GetY.
Proof. intros s. exists (gofpdf.y s), s. reflexivity. Qed.

Lemma returns_SetXY (x y : Q) : returns (gofpdf.SetXY x y).
Proof.
  unfold gofpdf.SetXY. apply returns_bind; [apply returns_call |].
  intros _. apply returns_call.
Qed.

Ltac returns_steps :=
  repeat first
    [ apply returns_ret
    | apply returns_call
    | apply returns_callr
    | apply returns_GetY
    | apply returns_SetXY
    | apply returns_bind; [| intros ?] ].

Lemma appendTitle_returns (env : Env) (d : Document.Document) :
  returns (appendTitle env d).
Proof.
  unfold appendTitle, gofpdf.SetFillColor, gofpdf.Rect, gofpdf.SetFont,
    gofpdf.CellFormat.
  returns_steps.
Qed.

Lemma appendMetas_returns (env : Env) (now : string) (d : Document.Document) :
  returns (appendMetas env now d).
Proof.
  intros s. destruct s as [x y page lM tM rM size ops].
  unfold appendMetas.
  destruct (0 <? String.length (Document.Version d))%nat;
    run; eexists; eexists; reflexivity.
Qed.

Lemma appendDescription_returns (env : Env) (d : Document.Document) :
  returns (appendDescription env d).
Proof.
  unfold appendDescription, gofpdf.SetY, gofpdf.SetFont.
  destruct (0 <? String.length (Document.Description d))%nat; returns_steps.
Qed.

Lemma appendItems_returns (env : Env) (d : Document.Document) :
  forall s, exists s', appendItems env d s = Ok (withCheckedTaxes d, s').
Proof. intros s. apply appendItems_items. Qed.

Lemma checkPageHeight_returns (env : Env) (d : Document.Document) :
  returns (checkPageHeight env d).
Proof.
  intros s. rewrite checkPageHeight_run.
  destruct (Qgtb _ (MaxPageHeight env)); eexists; eexists; reflexivity.
Qed.

Lemma appendNotes_returns (env : Env) (d : Document.Document) :
  returns (appendNotes env d).
Proof.
  intros s. destruct (appendNotes_run env d s) as (s' & Hrun & _).
  exists tt, s'. exact Hrun.
Qed.

(** What the payment term adds to the surface. *)
Lemma appendPaymentTerm_run (env : Env) (d : Document.Document) (pdf : Fpdf) :
  exists pdf',
    appendPaymentTerm env d pdf = Ok (tt, pdf')
    /\ gofpdf.ops pdf'
       = gofpdf.ops pdf ++ paymentTermOps env d (gofpdf.page pdf) (gofpdf.y pdf).
Proof.
  destruct pdf as [x y page lM tM rM size ops].
  unfold appendPaymentTerm, appendPaymentTermWith, paymentTermOps.
  destruct (Document.PaymentTerm d) as [| c term];
    cbn [String.length Nat.ltb Nat.leb]; run; eexists;
    (split; [reflexivity |]); cbn [gofpdf.ops].
  - now rewrite app_nil_r.
  - now rewrite <- app_assoc.
Qed.

Lemma appendPaymentTerm_returns (env : Env) (d : Document.Document) :
  returns (appendPaymentTerm env d).
Proof.
  intros s. destruct (appendPaymentTerm_run env d s) as (s' & Hrun & _).
  exists tt, s'. exact Hrun.
Qed.

Lemma returns_AddPage : returns gofpdf.AddPage.
Proof. apply returns_call. Qed.

Lemma returns_SetFont (family style : string) (size : Q) :
  returns (gofpdf.SetFont family style size).
Proof. apply returns_call. Qed.

Lemma returns_SetJavascript (script : string) :
  returns (gofpdf.SetJavascript script).
Proof. apply returns_call. Qed.

(** One step of a sequence, for a step that returns. *)
Ltac step_returns H :=
  match goal with
  | |- exists p, bind ?c ?k ?s = _ =>
      let a := fresh "a" in
      let s' := fresh "s" in
      let E := fresh "E" in
      destruct (bind_returns c k s H) as (a & s' & E);
      rewrite E; clear E; cbv beta
  end.

(** Whatever the document, [Build] gets as far as the totals: every step
    before them returns, and the document then has its taxes checked. *)
Lemma buildPages_reaches_totals (env : Env) (now : string)
    (d : Document.Document) (pdf : Fpdf) :
  exists pX,
    buildPages env now d pdf = finishPages env (withCheckedTaxes d) pX.
Proof.
  unfold buildPages.
  step_returns returns_AddPage.
  step_returns (returns_SetFont "Helvetica" "" 12).
  step_returns (appendTitle_returns env d).
  step_returns (appendMetas_returns env now d).
  step_returns (returns_callr (appendCompanyContactToDoc env (Document.Company d))).
  step_returns (returns_callr (appendCustomerContactToDoc env (Document.Customer d))).
  match goal with
  | |- exists p, bind (if ?b then _ else _) _ _ = _ => destruct b
  end.
  - step_returns (returns_SetXY 10 a4).
    step_returns (appendDescription_returns env d).
    match goal with
    | |- exists p, bind _ _ ?s = _ =>
        destruct (appendItems_returns env d s) as (s' & E)
    end.
    unfold bind at 1. rewrite E. clear E. cbv beta iota.
    step_returns (checkPageHeight_returns env (withCheckedTaxes d)).
    step_returns (appendNotes_returns env (withCheckedTaxes d)).
    eexists. reflexivity.
  - step_returns (returns_SetXY 10 a3).
    step_returns (appendDescription_returns env d).
    match goal with
    | |- exists p, bind _ _ ?s = _ =>
        destruct (appendItems_returns env d s) as (s' & E)
    end.
    unfold bind at 1. rewrite E. clear E. cbv beta iota.
    step_returns (checkPageHeight_returns env (withCheckedTaxes d)).
    step_returns (appendNotes_returns env (withCheckedTaxes d)).
    eexists. reflexivity.
Qed.

(** The end of [Build] when the totals can be drawn. *)
Lemma finishPages_run (env : Env) (d : Document.Document) (pX : Fpdf) :
  totalsDrawable d = true ->
  exists pT t description l pdf',
    appendTotal env d pX = Ok (tt, pT)
    /\ computeTotals d = Ok t
    /\ gofpdf.ops pT = gofpdf.ops pX ++ l
    /\ cellTexts l = totalsTexts env d t description
    /\ finishPages env d pX = Ok (d, pdf')
    /\ gofpdf.ops pdf'
       = gofpdf.ops pT
         ++ paymentTermOps env d (gofpdf.page pT) (gofpdf.y pT)
         ++ autoPrintOps d.
Proof.
  intros Hdraw.
  destruct (appendTotal_returns env d pX Hdraw) as (pT & Hrun).
  pose proof (appendTotal_texts_effect env d pX) as E.
  rewrite Hrun in E. destruct E as (t & desc & l & Ht & _ & Hops & Htexts).
  destruct (appendPaymentTerm_run env d pT) as (pP & HrunP & HopsP).
  exists pT, t, desc, l.
  unfold finishPages, autoPrintOps. unfold bind at 1. rewrite Hrun.
  unfold bind at 1. rewrite HrunP.
  destruct (AutoPrint (Document.Options d)).
  - eexists. repeat split; try eassumption.
    cbv beta iota delta [bind ret call gofpdf.SetJavascript gofpdf.emit
                         gofpdf.ops].
    destruct pP as [x y page lM tM rM size ops]. cbn [gofpdf.ops] in *.
    rewrite HopsP, <- app_assoc. reflexivity.
  - exists pP. repeat split; try eassumption.
    rewrite HopsP, app_nil_r. reflexivity.
Qed.

(** The end of [Build] when they cannot. *)
Lemma finishPages_panics (env : Env) (d : Document.Document) (pX : Fpdf) :
  totalsDrawable d = false ->
  finishPages env d pX = Panic "decimal division by 0".
Proof.
  intros Hdraw. unfold finishPages. unfold bind at 1.
  now rewrite (appendTotal_panics env d pX Hdraw).
Qed.

Lemma Build_base (env : Env) :
  (gofpdf.SetMargins (BaseMargin env) (BaseMarginTop env) (BaseMargin env) ;;
   gofpdf.SetXY 10 10 ;;
   gofpdf.SetTextColor (red (BaseTextColor env)) (green (BaseTextColor env))
                       (blue (BaseTextColor env))) gofpdf.New
  = Ok (tt, baseSurface env).
Proof. reflexivity. Qed.

(** Past the header and the footer [Build] returns a surface, or panics
    on a division by zero of the totals. *)
Lemma buildPages_outcome (env : Env) (now : string) (d : Document.Document)
    (pdf : Fpdf) :
  if totalsDrawable (withCheckedTaxes d)
  then exists pdf', buildPages env now d pdf = Ok (withCheckedTaxes d, pdf')
  else buildPages env now d pdf = Panic "decimal division by 0".
Proof.
  destruct (buildPages_reaches_totals env now d pdf) as (pX & Hreach).
  rewrite Hreach.
  destruct (totalsDrawable (withCheckedTaxes d)) eqn:Hdraw.
  - destruct (finishPages_run env (withCheckedTaxes d) pX Hdraw)
      as (pT & t & desc & l & pdf' & _ & _ & _ & _ & Hfinish & _).
    exists pdf'. exact Hfinish.
  - apply finishPages_panics. exact Hdraw.
Qed.

(** The outcomes of [Build], in the order the code reaches them: the
    validation error; the error of the header; the error of the footer,
    each with no surface and the document as it was; and past these,
    never an error: a surface and the document with its taxes checked
    when the totals can be drawn, a panic on a division by zero when they
    cannot. *)
Theorem Build_outcomes (env : Env) (now : string) (d : Document.Document) :
  match Validate env d with
  | Some err => Build env now d = Ok (d, (None, Some err))
  | None =>
      match applyChrome (applyHeader env) (Document.Header d) d (baseSurface env) with
      | (_, Some err) => Build env now d = Ok (d, (None, Some err))
      | (pdf1, None) =>
          match applyChrome (applyFooter env) (Document.Footer d) d pdf1 with
          | (_, Some err) => Build env now d = Ok (d, (None, Some err))
          | (_, None) =>
              if totalsDrawable (withCheckedTaxes d)
              then exists pdf',
                     Build env now d = Ok (withCheckedTaxes d, (Some pdf', None))
              else Build env now d = Panic "decimal division by 0"
          end
      end
  end.
Proof.
  unfold Build.
  destruct (Validate env d) as [err |]; [reflexivity |].
  rewrite Build_base. cbn [obind snd].
  destruct (applyChrome (applyHeader env) (Document.Header d) d (baseSurface env))
    as [pdf1 [err |]]; [reflexivity |].
  destruct (applyChrome (applyFooter env) (Document.Footer d) d pdf1)
    as [pdf2 [err |]]; [reflexivity |].
  pose proof (buildPages_outcome env now d pdf2) as H.
  destruct (totalsDrawable (withCheckedTaxes d)).
  - destruct H as (pdf' & H). exists pdf'. rewrite H. reflexivity.
  - rewrite H. reflexivity.
Qed.

(** When [Build] returns, it returns a surface or an error and never
    both: with a surface the error is nil and the document has its taxes
    checked; with an error the surface is nil and the document is as it
    was. *)
Theorem Build_surface_or_error (env : Env) (now : string)
    (d d1 : Document.Document) (r : option Fpdf * option error) :
  Build env now d = Ok (d1, r) ->
  (exists pdf', r = (Some pdf', None) /\ d1 = withCheckedTaxes d)
  \/ (exists err, r = (None, Some err) /\ d1 = d).
Proof.
  unfold Build.
  destruct (Validate env d) as [err |].
  { intros Hrun. injection Hrun as <- <-. right. now exists err. }
  rewrite Build_base. cbn [obind snd].
  destruct (applyChrome (applyHeader env) (Document.Header d) d (baseSurface env))
    as [pdf1 [err |]].
  { intros Hrun. injection Hrun as <- <-. right. now exists err. }
  destruct (applyChrome (applyFooter env) (Document.Footer d) d pdf1)
    as [pdf2 [err |]].
  { intros Hrun. injection Hrun as <- <-. right. now exists err. }
  pose proof (buildPages_outcome env now d pdf2) as H.
  destruct (totalsDrawable (withCheckedTaxes d)).
  - destruct H as (pdf' & H). rewrite H. cbn [obind fst snd].
    intros Hrun. injection Hrun as <- <-. left. now exists pdf'.
  - rewrite H. discriminate.
Qed.

Lemma Build_surface_or_error_witness :
  (exists pdf',
      (@None Fpdf, Some "Items is a required field"%string) = (Some pdf', None)
      /\ Sample.document [] None "" "" = withCheckedTaxes (Sample.document [] None "" ""))
  \/ (exists err,
         (@None Fpdf, Some "Items is a required field"%string) = (None, Some err)
         /\ Sample.document [] None "" "" = Sample.document [] None "" "").
Proof.
  apply (Build_surface_or_error Sample.env "31/10/2026"
           (Sample.document [] None "" "")).
  reflexivity.
Defined.

Lemma last_app_cons {A : Type} (l l' : list A) (x d : A) :
  last (l ++ x :: l') d = last (x :: l') d.
Proof.
  induction l as [| y l IH]; [reflexivity |].
  cbn [app]. rewrite <- IH. destruct (l ++ x :: l') eqn:E; [| reflexivity].
  destruct l; discriminate E.
Qed.

Lemma cellTexts_app (l l' : list gofpdf.Op) :
  cellTexts (l ++ l') = cellTexts l ++ cellTexts l'.
Proof. apply flat_map_app. Qed.

(** When the totals can be drawn, the last text of the document is the
    payment term when there is one, and the grand total otherwise. *)
Theorem buildPages_last_text (env : Env) (now : string) (d : Document.Document)
    (pdf : Fpdf) :
  totalsDrawable (withCheckedTaxes d) = true ->
  let d' := withCheckedTaxes d in
  exists t pdf',
    buildPages env now d pdf = Ok (d', pdf')
    /\ computeTotals d' = Ok t
    /\ last (cellTexts (gofpdf.ops pdf')) ""%string
       = match Document.PaymentTerm d with
         | EmptyString =>
             FormatMoneyDecimal env (documentAccounting env d) (totalWithTax t)
         | _ =>
             sprintfPair
               (encodeString env (TextPaymentTermTitle (Document.Options d)))
               (encodeString env (Document.PaymentTerm d))
         end.
Proof.
  intros Hdraw d'.
  destruct (buildPages_reaches_totals env now d pdf) as (pX & Hreach).
  destruct (finishPages_run env d' pX Hdraw)
    as (pT & t & desc & l & pdf' & Hrun & Ht & HopsT & Htexts & Hfinish & Hops).
  exists t, pdf'. rewrite Hreach.
  split; [exact Hfinish |]. split; [exact Ht |].
  rewrite Hops, HopsT, !cellTexts_app, Htexts.
  assert (Hjs : cellTexts (autoPrintOps d') = []).
  { unfold autoPrintOps. destruct (AutoPrint (Document.Options d')); reflexivity. }
  rewrite Hjs, app_nil_r.
  unfold paymentTermOps, totalsTexts.
  change (Document.PaymentTerm d') with (Document.PaymentTerm d).
  change (Document.Options d') with (Document.Options d).
  change (documentAccounting env d') with (documentAccounting env d).
  destruct (Document.PaymentTerm d) as [| c term].
  - change (cellTexts []) with (@nil string).
    rewrite app_nil_r, !app_assoc, last_app_cons. reflexivity.
  - match goal with
    | |- context [cellTexts [?f; gofpdf.OpCellFormat ?pg ?a ?b ?w ?h ?txt
                                   ?bd ?ln ?al ?fl ?lk ?ls]] =>
        change (cellTexts [f; gofpdf.OpCellFormat pg a b w h txt bd ln al fl lk ls])
          with [txt]
    end.
    rewrite !app_assoc. apply last_last.
Qed.

Lemma buildPages_last_text_witness :
  let d := Sample.document [Sample.widget] None "" "" in
  exists t pdf',
    buildPages Sample.env "31/10/2026" d Sample.surface
    = Ok (withCheckedTaxes d, pdf')
    /\ computeTotals (withCheckedTaxes d) = Ok t
    /\ last (cellTexts (gofpdf.ops pdf')) ""%string
       = FormatMoneyDecimal Sample.env (documentAccounting Sample.env d)
           (totalWithTax t).
Proof.
  intros d.
  exact (buildPages_last_text Sample.env "31/10/2026" d Sample.surface eq_refl).
Defined.

(** ** The contact blocks *)

(** [Build] runs the contact blocks between the metas and the
    description. *)
Lemma buildPages_contacts (env : Env) (now : string) (d : Document.Document)
    (pdf : Fpdf) :
  buildPages env now d pdf
  = (gofpdf.AddPage ;;
     gofpdf.SetFont "Helvetica" "" 12 ;;
     appendTitle env d ;;
     appendMetas env now d ;;
     appendContacts env d ;;
     appendDescription env d ;;
     d' <- appendItems env d ;;
     checkPageHeight env d' ;;
     appendNotes env d' ;;
     finishPages env d') pdf.
Proof.
  unfold buildPages, finishPages, appendContacts, bind.
  destruct (gofpdf.AddPage pdf) as [[u1 p1] | m]; [| reflexivity].
  destruct (gofpdf.SetFont "Helvetica" "" 12 p1) as [[u2 p2] | m]; [| reflexivity].
  destruct (appendTitle env d p2) as [[u3 p3] | m]; [| reflexivity].
  destruct (appendMetas env now d p3) as [[u4 p4] | m]; [| reflexivity].
  destruct (callr (appendCompanyContactToDoc env (Document.Company d)) p4)
    as [[cb p5] | m]; [| reflexivity].
  destruct (callr (appendCustomerContactToDoc env (Document.Customer d)) p5)
    as [[cu p6] | m]; [| reflexivity].
  destruct (Qgtb cu cb); reflexivity.
Qed.

(** The contact blocks leave the cursor at abscissa 10 and at the greater
    of the two bottoms that the contact renderers returned: at one of
    them, and not above either.  The customer block is drawn on the
    surface that the company block left; the cursor move draws nothing. *)
Theorem appendContacts_below_both (env : Env) (d : Document.Document)
    (pdf : Fpdf) :
  let company := appendCompanyContactToDoc env (Document.Company d) pdf in
  let customer :=
    appendCustomerContactToDoc env (Document.Customer d) (snd company) in
  exists pdf',
    appendContacts env d pdf = Ok (tt, pdf')
    /\ gofpdf.x pdf' = 10%Q
    /\ (gofpdf.y pdf' = fst company \/ gofpdf.y pdf' = fst customer)
    /\ (fst company <= gofpdf.y pdf')%Q
    /\ (fst customer <= gofpdf.y pdf')%Q
    /\ gofpdf.ops pdf' = gofpdf.ops (snd customer)
    /\ gofpdf.page pdf' = gofpdf.page (snd customer).
Proof.
  cbv zeta. unfold appendContacts, bind, callr.
  destruct (appendCompanyContactToDoc env (Document.Company d) pdf) as [cb p1].
  cbn [fst snd].
  destruct (appendCustomerContactToDoc env (Document.Customer d) p1) as [cu p2].
  cbn [fst snd]. unfold Qgtb.
  destruct (Qle_bool cu cb) eqn:Hle; cbn [negb].
  - apply Qle_bool_imp_le in Hle.
    eexists. split; [reflexivity |]. cbn [gofpdf.x gofpdf.y gofpdf.ops gofpdf.page].
    repeat split; [left; reflexivity | apply Qle_refl | exact Hle].
  - assert (Hlt : (cb < cu)%Q).
    { apply Qnot_le_lt. intros H. apply Qle_bool_iff in H. congruence. }
    eexists. split; [reflexivity |]. cbn [gofpdf.x gofpdf.y gofpdf.ops gofpdf.page].
    repeat split; [right; reflexivity | apply Qlt_le_weak; exact Hlt | apply Qle_refl].
Qed.

(** ** An amount discount larger than the total *)

(** The document discount is not clamped: an amount discount larger than
    a non-zero total still gives totals, with a negative total after
    discount, and [appendTotal] returns. *)
Theorem amount_discount_not_clamped (env : Env) (d : Document.Document)
    (a : Decimal) (pdf : Fpdf) :
  Document.Discount d = Some (DiscountAmount a) ->
  (toQ (sumItemTotals (Document.Items d)) < toQ a)%Q ->
  IsZero (sumItemTotals (Document.Items d)) = false ->
  exists t pdf',
    computeTotals d = Ok t
    /\ (toQ (totalWithDiscount t) == toQ (total t) - toQ a)%Q
    /\ (toQ (totalWithDiscount t) < 0)%Q
    /\ appendTotal env d pdf = Ok (tt, pdf').
Proof.
  intros Hd Hlt Hsum.
  assert (Hneg : (toQ (Sub (sumItemTotals (Document.Items d)) a) < 0)%Q).
  { rewrite toQ_Sub. lra. }
  assert (Hz : IsZero (Sub (sumItemTotals (Document.Items d)) a) = false).
  { destruct (IsZero (Sub (sumItemTotals (Document.Items d)) a)) eqn:E;
      [| reflexivity].
    apply IsZero_toQ in E. rewrite E in Hneg. discriminate Hneg. }
  destruct (computeTotals_discount d (DiscountAmount a)
              (quotient (Mul a Hundred) (Sub (sumItemTotals (Document.Items d)) a))
              Hd) as (tax & _ & Ht).
  { rewrite getDiscountPercent_amount. apply Div_nonzero. exact Hz. }
  destruct (appendTotal_returns env d pdf) as (pdf' & Hrun).
  { unfold totalsDrawable. rewrite Hd, Hz, Hsum. reflexivity. }
  eexists. exists pdf'. split; [exact Ht |].
  cbn [total totalWithDiscount discountedTotal].
  split; [apply toQ_Sub |]. split; [exact Hneg | exact Hrun].
Qed.

Lemma amount_discount_not_clamped_witness :
  exists t pdf',
    computeTotals
      (Sample.document [Sample.widget] (Some (DiscountAmount (New 300 0))) "" "")
    = Ok t
    /\ (toQ (totalWithDiscount t) < 0)%Q
    /\ appendTotal Sample.env
         (Sample.document [Sample.widget] (Some (DiscountAmount (New 300 0))) "" "")
         Sample.surface = Ok (tt, pdf').
Proof.
  destruct (amount_discount_not_clamped Sample.env
              (Sample.document [Sample.widget] (Some (DiscountAmount (New 300 0))) "" "")
              (New 300 0) Sample.surface eq_refl)
    as (t & pdf' & Ht & _ & Hneg & Hrun).
  - reflexivity.
  - reflexivity.
  - exists t, pdf'. repeat split; assumption.
Defined.

(** ** The title and the description *)

(** [appendTitle] always returns.  It draws the title box at abscissa 120
    and at the top margin constant, wherever the cursor was: a filled
    rectangle 80 by 10 and, over exactly that rectangle, one centred cell
    with the type of the document; the cursor ends at the right of the
    box. *)
Theorem appendTitle_draws (env : Env) (d : Document.Document) (pdf : Fpdf) :
  exists pdf',
    appendTitle env d pdf = Ok (tt, pdf')
    /\ gofpdf.ops pdf'
       = gofpdf.ops pdf
         ++ [gofpdf.OpSetFillColor (red (DarkBgColor env)) (green (DarkBgColor env))
                                   (blue (DarkBgColor env));
             gofpdf.OpRect (gofpdf.page pdf) 120 (BaseMarginTop env) 80 10 "F";
             gofpdf.OpSetFont "Helvetica" "" 14;
             gofpdf.OpCellFormat (gofpdf.page pdf) 120 (BaseMarginTop env) 80 10
               (encodeString env (typeAsString env d)) "0" 0 "C" false 0 ""]
    /\ gofpdf.page pdf' = gofpdf.page pdf
    /\ gofpdf.x pdf' = (120 + 80)%Q
    /\ gofpdf.y pdf' = BaseMarginTop env.
Proof.
  destruct pdf as [x y page lM tM rM size ops].
  unfold appendTitle. run. eexists. split; [reflexivity |].
  cbn [gofpdf.ops gofpdf.page gofpdf.x gofpdf.y].
  repeat rewrite <- app_assoc. repeat split.
Qed.

(** [appendDescription] always returns.  Without a description it leaves
    the surface as it is.  With one it hands the multi-line writer the
    encoded description, a width of 190 and a line height of 5, on the
    same page with the cursor 10 below, at the left margin and in a
    10 point font, and returns what the writer returns. *)
Theorem appendDescription_draws (env : Env) (d : Document.Document)
    (pdf : Fpdf) :
  exists pdf',
    appendDescription env d pdf = Ok (tt, pdf')
    /\ match Document.Description d with
       | EmptyString => pdf' = pdf
       | _ =>
           exists pIn,
             pdf' = MultiCell env 190 5 (encodeString env (Document.Description d))
                              "B" "L" false pIn
             /\ gofpdf.y pIn = (gofpdf.y pdf + 10)%Q
             /\ gofpdf.x pIn = gofpdf.lMargin pdf
             /\ gofpdf.page pIn = gofpdf.page pdf
             /\ gofpdf.fontSizePt pIn = 10%Q
             /\ gofpdf.ops pIn
                = gofpdf.ops pdf ++ [gofpdf.OpSetFont "Helvetica" "" 10]
       end.
Proof.
  destruct pdf as [x y page lM tM rM size ops].
  unfold appendDescription.
  destruct (Document.Description d) as [| c description];
    cbn [String.length Nat.ltb Nat.leb]; run; eexists;
    (split; [reflexivity |]).
  - reflexivity.
  - eexists. split; [reflexivity |]. repeat split.
Qed.
